(** * Feedback router: a shallow embedding of [app/routers/feedback.py]

    The router's handlers are translated one by one into computations over
    an explicit store: the users, and the three document collections the
    router reads and writes.  A handler threads the store through its calls
    to the document classes and either returns a response or raises an
    [HTTPException]; in both cases the store is left as the handler's writes
    made it. *)

From Stdlib Require Import List String Bool Arith ZArith Lia Permutation Sorted.
Import ListNotations.
Open Scope string_scope.
Open Scope list_scope.

(** ** Documents *)

(** Document identifiers ([_id]) are opaque to the router; natural numbers
    stand for them.  A timestamp counts microseconds, the resolution of
    [datetime.utcnow()]. *)
Definition ObjectId := nat.
Definition datetime := nat.

(** The store keeps a time to the millisecond: what is read back is the time
    that was written with its microseconds cut off. *)
Definition to_milliseconds (t : datetime) : datetime := (t / 1000) * 1000.

(** The time [n] milliseconds after the epoch. *)
Definition milliseconds (n : nat) : datetime := n * 1000.

Module User.
Record t := mk { employee_id : string; name : string; role : string }.
End User.

Module Comment.
(** The dictionaries [{"employee_id": ..., "text": ...}] kept in
    [Feedback.comments]. *)
Record t := mk { employee_id : string; text : string }.
End Comment.

Module Feedback.
Record t := mk {
  employee_id : string;
  manager_employee_id : string;
  strengths : string;
  improvement : string;
  sentiment : string;
  anonymous : bool;
  tags : list string;
  acknowledged : bool;
  comments : list Comment.t;
  created_at : datetime
}.

Definition set_acknowledged (b : bool) (fb : t) : t :=
  mk (employee_id fb) (manager_employee_id fb) (strengths fb)
     (improvement fb) (sentiment fb) (anonymous fb) (tags fb)
     b (comments fb) (created_at fb).

Definition set_comments (cs : list Comment.t) (fb : t) : t :=
  mk (employee_id fb) (manager_employee_id fb) (strengths fb)
     (improvement fb) (sentiment fb) (anonymous fb) (tags fb)
     (acknowledged fb) cs (created_at fb).

(** The document as the store keeps it. *)
Definition as_stored (fb : t) : t :=
  mk (employee_id fb) (manager_employee_id fb) (strengths fb)
     (improvement fb) (sentiment fb) (anonymous fb) (tags fb)
     (acknowledged fb) (comments fb) (to_milliseconds (created_at fb)).
End Feedback.

Module FeedbackRequest.
Record t := mk {
  employee_id : string;
  manager_employee_id : string;
  message : string;
  seen : bool;
  created_at : datetime
}.

Definition set_seen (b : bool) (r : t) : t :=
  mk (employee_id r) (manager_employee_id r) (message r) b (created_at r).

(** The document as the store keeps it. *)
Definition as_stored (r : t) : t :=
  mk (employee_id r) (manager_employee_id r) (message r) (seen r)
     (to_milliseconds (created_at r)).
End FeedbackRequest.

Module Notification.
Record t := mk {
  employee_id : string;
  manager_employee_id : string;
  manager_name : string;
  message : string;
  seen : bool;
  created_at : datetime
}.

Definition set_seen (b : bool) (n : t) : t :=
  mk (employee_id n) (manager_employee_id n) (manager_name n) (message n)
     b (created_at n).

(** Modelled from the spec: the [Notification] document class is declared in
    [app/models/notification.py]; the router never passes [seen] or
    [created_at], so both take their defaults, [seen = false] and the time
    of creation. *)
Definition create (now : datetime) (employee_id manager_employee_id
                   manager_name message : string) : t :=
  mk employee_id manager_employee_id manager_name message false now.

(** The document as the store keeps it. *)
Definition as_stored (n : t) : t :=
  mk (employee_id n) (manager_employee_id n) (manager_name n) (message n)
     (seen n) (to_milliseconds (created_at n)).
End Notification.

(** ** What the driver returns ([pymongo.results]) *)

Module DeleteResult.
(** The object a bulk delete returns; it holds the number of documents that
    were removed. *)
Record t := mk { deleted_count : nat }.
End DeleteResult.

(** The pieces of an f-string one of whose fields is a driver object: the
    text as written, and the object where it is interpolated.  What the
    object prints as is the driver's matter. *)
Inductive fragment : Type :=
| Text (s : string)
| Formatted (o : DeleteResult.t).

(** ** Request bodies ([app/schemas/feedback.py]) *)

Module FeedbackCreate.
(** [tags] is optional: the router reads it as [payload.tags or []]. *)
Record t := mk {
  employee_id : string;
  manager_employee_id : string;
  strengths : string;
  improvement : string;
  sentiment : string;
  anonymous : bool;
  tags : option (list string)
}.
End FeedbackCreate.

Module FeedbackRequestIn.
Record t := mk {
  employee_id : string;
  manager_employee_id : string;
  message : string
}.
End FeedbackRequestIn.

Module CommentIn.
Record t := mk { employee_id : string; text : string }.
End CommentIn.

(** Python's [xs or []] on an optional list. *)
Definition or_empty {A : Type} (o : option (list A)) : list A :=
  match o with
  | Some l => l
  | None => []
  end.

(** ** The document store *)

(** A collection keeps its documents in insertion order, each under its
    identifier. *)
Definition collection (D : Type) := list (ObjectId * D).

Module Store.
Section Ops.
Context {D : Type}.

Definition has_id (id : ObjectId) (e : ObjectId * D) : bool :=
  Nat.eqb (fst e) id.

(** [Document.get(id)] *)
Definition get (c : collection D) (id : ObjectId) : option D :=
  option_map snd (find (has_id id) c).

(** [doc.insert()] under a new identifier *)
Definition insert (c : collection D) (id : ObjectId) (d : D)
  : collection D :=
  c ++ [(id, d)].

(** [doc.save()]: replaces the stored document of that identifier, and
    stores the document when none is there.  The router saves only documents
    it has read from the store, whose times are to the millisecond
    already. *)
Definition save (c : collection D) (id : ObjectId) (d : D)
  : collection D :=
  if existsb (has_id id) c
  then map (fun e => if has_id id e then (id, d) else e) c
  else c ++ [(id, d)].

(** [doc.delete()] *)
Definition delete (c : collection D) (id : ObjectId) : collection D :=
  filter (fun e => negb (has_id id e)) c.

(** [Document.find(conds)] *)
Definition find_many (p : D -> bool) (c : collection D) : collection D :=
  filter (fun e => p (snd e)) c.

(** [Document.find(conds).delete()]: what is left, and how many documents
    were removed. *)
Definition delete_many (p : D -> bool) (c : collection D)
  : collection D * nat :=
  (filter (fun e => negb (p (snd e))) c, List.length (find_many p c)).

(** [Document.find(conds).update_many(...)] *)
Definition update_many (p : D -> bool) (f : D -> D) (c : collection D)
  : collection D :=
  map (fun e => if p (snd e) then (fst e, f (snd e)) else e) c.

(** [Document.find(conds).count()] *)
Definition count (p : D -> bool) (c : collection D) : nat :=
  List.length (find_many p c).
End Ops.
End Store.

(** The store: the Directory's users, the three collections, and the next
    identifier the store hands out. *)
Record DB := mkDB {
  users : list User.t;
  feedbacks : collection Feedback.t;
  feedback_requests : collection FeedbackRequest.t;
  notifications : collection Notification.t;
  next_id : ObjectId
}.

Definition with_feedbacks (c : collection Feedback.t) (db : DB) : DB :=
  mkDB (users db) c (feedback_requests db) (notifications db) (next_id db).

Definition with_feedback_requests (c : collection FeedbackRequest.t) (db : DB)
  : DB :=
  mkDB (users db) (feedbacks db) c (notifications db) (next_id db).

Definition with_notifications (c : collection Notification.t) (db : DB) : DB :=
  mkDB (users db) (feedbacks db) (feedback_requests db) c (next_id db).

Definition bump_id (db : DB) : DB :=
  mkDB (users db) (feedbacks db) (feedback_requests db) (notifications db)
       (S (next_id db)).

(** The three conditions the router queries users by. *)
Definition is_manager (id : string) (u : User.t) : bool :=
  (User.employee_id u =? id) && (User.role u =? "manager").

Definition is_employee (id : string) (u : User.t) : bool :=
  (User.employee_id u =? id) && (User.role u =? "employee").

Definition has_employee_id (id : string) (u : User.t) : bool :=
  User.employee_id u =? id.

(** ** Handlers: store access that may raise *)

Record http_exception := HTTPException { status_code : nat; detail : string }.

Inductive result (A : Type) : Type :=
| Ok (a : A)
| Raise (e : http_exception).
Arguments Ok {A} a.
Arguments Raise {A} e.

(** A handler runs against the store and leaves it as its writes made it,
    whether it returns or raises. *)
Definition M (A : Type) : Type := DB -> result A * DB.

Definition ret {A : Type} (a : A) : M A := fun db => (Ok a, db).

Definition raise {A : Type} (e : http_exception) : M A :=
  fun db => (Raise e, db).

Definition bind {A B : Type} (m : M A) (k : A -> M B) : M B :=
  fun db =>
    match m db with
    | (Ok a, db') => k a db'
    | (Raise e, db') => (Raise e, db')
    end.

Notation "x <- m ;; k" := (bind m (fun x => k))
  (at level 61, m at next level, right associativity).
Notation "m ;;; k" := (bind m (fun _ => k))
  (at level 61, right associativity).

(** [if not x: raise e] *)
Definition require {A : Type} (o : option A) (e : http_exception) : M A :=
  match o with
  | Some a => ret a
  | None => raise e
  end.

(** [if not x or not ok(x): raise e] *)
Definition require_that {A : Type} (o : option A) (ok : A -> bool)
    (e : http_exception) : M A :=
  match o with
  | Some a => if ok a then ret a else raise e
  | None => raise e
  end.

(** [if x: body(x)] *)
Definition when_some {A : Type} (o : option A) (body : A -> M unit) : M unit :=
  match o with
  | Some a => body a
  | None => ret tt
  end.

(** [for x in xs: out.append(f(x))] *)
Fixpoint for_each {A B : Type} (f : A -> M B) (xs : list A) : M (list B) :=
  match xs with
  | [] => ret []
  | x :: xs' => y <- f x ;; ys <- for_each f xs' ;; ret (y :: ys)
  end.

(** The Directory: the first user that meets the conditions of a query. *)
Definition lookup (p : User.t -> bool) (db : DB) : option User.t :=
  find p (users db).

(** The calls of the document classes. *)

Definition User_find_one (p : User.t -> bool) : M (option User.t) :=
  fun db => (Ok (lookup p db), db).

Definition Feedback_get (id : ObjectId) : M (option Feedback.t) :=
  fun db => (Ok (Store.get (feedbacks db) id), db).

Definition Feedback_insert (fb : Feedback.t) : M ObjectId :=
  fun db =>
    (Ok (next_id db),
     bump_id (with_feedbacks
                (Store.insert (feedbacks db) (next_id db)
                   (Feedback.as_stored fb))
                db)).

Definition Feedback_save (id : ObjectId) (fb : Feedback.t) : M unit :=
  fun db => (Ok tt, with_feedbacks (Store.save (feedbacks db) id fb) db).

Definition Feedback_delete (id : ObjectId) : M unit :=
  fun db => (Ok tt, with_feedbacks (Store.delete (feedbacks db) id) db).

Definition Feedback_find (p : Feedback.t -> bool)
  : M (collection Feedback.t) :=
  fun db => (Ok (Store.find_many p (feedbacks db)), db).

Definition Feedback_find_delete (p : Feedback.t -> bool)
  : M DeleteResult.t :=
  fun db =>
    let (rest, deleted) := Store.delete_many p (feedbacks db) in
    (Ok (DeleteResult.mk deleted), with_feedbacks rest db).

Definition FeedbackRequest_get (id : ObjectId) : M (option FeedbackRequest.t) :=
  fun db => (Ok (Store.get (feedback_requests db) id), db).

Definition FeedbackRequest_insert (fr : FeedbackRequest.t) : M ObjectId :=
  fun db =>
    (Ok (next_id db),
     bump_id (with_feedback_requests
                (Store.insert (feedback_requests db) (next_id db)
                   (FeedbackRequest.as_stored fr))
                db)).

Definition FeedbackRequest_save (id : ObjectId) (fr : FeedbackRequest.t)
  : M unit :=
  fun db =>
    (Ok tt,
     with_feedback_requests (Store.save (feedback_requests db) id fr) db).

Definition FeedbackRequest_find_count (p : FeedbackRequest.t -> bool) : M nat :=
  fun db => (Ok (Store.count p (feedback_requests db)), db).

Definition Notification_get (id : ObjectId) : M (option Notification.t) :=
  fun db => (Ok (Store.get (notifications db) id), db).

Definition Notification_insert (n : Notification.t) : M ObjectId :=
  fun db =>
    (Ok (next_id db),
     bump_id (with_notifications
                (Store.insert (notifications db) (next_id db)
                   (Notification.as_stored n))
                db)).

Definition Notification_save (id : ObjectId) (n : Notification.t) : M unit :=
  fun db =>
    (Ok tt, with_notifications (Store.save (notifications db) id n) db).

Definition Notification_find_update_many (p : Notification.t -> bool)
    (f : Notification.t -> Notification.t) : M unit :=
  fun db =>
    (Ok tt,
     with_notifications (Store.update_many p f (notifications db)) db).

(** What a handler's outcome is called. *)
Definition NotFound {A : Type} (r : result A) : Prop :=
  exists msg, r = Raise (HTTPException 404 msg).

Definition Forbidden {A : Type} (r : result A) : Prop :=
  exists msg, r = Raise (HTTPException 403 msg).

(** ** The router *)

Section Router.

(** The response schema [FeedbackOut], its constructor
    [FeedbackOut.from_feedback(fb, manager_name, comments)] (the third
    argument is optional) and [markdown2.markdown] are not part of the
    router: the handlers are translated over any choice of them. *)
Variable FeedbackOut : Type.
Variable from_feedback :
  ObjectId -> Feedback.t -> string -> option (list Comment.t) -> FeedbackOut.
Variable markdown : string -> string.

(** Every handler reads the clock once ([now]); it stamps the documents the
    handler creates. *)

Definition create_feedback (now : datetime) (payload : FeedbackCreate.t)
    : M FeedbackOut :=
  mgr <- User_find_one
           (is_manager (FeedbackCreate.manager_employee_id payload)) ;;
  mgr <- require mgr (HTTPException 404 "Manager not found") ;;
  employee <- User_find_one
                (is_employee (FeedbackCreate.employee_id payload)) ;;
  employee <- require employee (HTTPException 404 "Employee not found") ;;
  let fb := Feedback.mk
              (FeedbackCreate.employee_id payload)
              (FeedbackCreate.manager_employee_id payload)
              (FeedbackCreate.strengths payload)
              (FeedbackCreate.improvement payload)
              (FeedbackCreate.sentiment payload)
              (FeedbackCreate.anonymous payload)
              (or_empty (FeedbackCreate.tags payload))
              false
              []
              now in
  fb_id <- Feedback_insert fb ;;
  Notification_insert
    (Notification.create now
       (FeedbackCreate.employee_id payload)
       (User.employee_id mgr)
       (User.name mgr)
       (String.append "You have received new feedback from manager "
                      (User.name mgr))) ;;;
  ret (from_feedback fb_id fb (User.name mgr) None).

Definition request_feedback (now : datetime) (payload : FeedbackRequestIn.t)
    : M string :=
  emp <- User_find_one
           (is_employee (FeedbackRequestIn.employee_id payload)) ;;
  emp <- require emp (HTTPException 404 "Employee not found") ;;
  mgr <- User_find_one
           (is_manager (FeedbackRequestIn.manager_employee_id payload)) ;;
  mgr <- require mgr (HTTPException 404 "Manager not found") ;;
  let fr := FeedbackRequest.mk
              (FeedbackRequestIn.employee_id payload)
              (FeedbackRequestIn.manager_employee_id payload)
              (FeedbackRequestIn.message payload)
              false
              now in
  FeedbackRequest_insert fr ;;;
  Notification_insert
    (Notification.create now
       (FeedbackRequestIn.manager_employee_id payload)
       (FeedbackRequestIn.manager_employee_id payload)
       (User.name mgr)
       (String.append "Feedback request from employee "
                      (FeedbackRequestIn.employee_id payload))) ;;;
  ret "Feedback request submitted successfully".

Definition mark_feedback_request_seen (request_id : ObjectId) : M string :=
  req <- FeedbackRequest_get request_id ;;
  req <- require req (HTTPException 404 "Feedback request not found") ;;
  let req := FeedbackRequest.set_seen true req in
  FeedbackRequest_save request_id req ;;;
  ret "Feedback request marked as seen".

Definition count_unseen_requests (manager_id : string) : M nat :=
  mgr <- User_find_one (is_manager manager_id) ;;
  mgr <- require mgr (HTTPException 404 "Manager not found") ;;
  FeedbackRequest_find_count
    (fun r => (FeedbackRequest.manager_employee_id r =? manager_id)
              && Bool.eqb (FeedbackRequest.seen r) false).

(** [{"employee_id": c["employee_id"], "text": markdown2.markdown(c["text"])}]
    for each stored comment. *)
Definition comments_html (fb : Feedback.t) : list Comment.t :=
  map (fun c => Comment.mk (Comment.employee_id c)
                           (markdown (Comment.text c)))
      (Feedback.comments fb).

(** [mgr.name if mgr else "Unknown"] *)
Definition name_or_unknown (mgr : option User.t) : string :=
  match mgr with
  | Some m => User.name m
  | None => "Unknown"
  end.

Definition get_feedback_history (employee_id : string)
    : M (list FeedbackOut) :=
  fbs <- Feedback_find (fun fb => Feedback.employee_id fb =? employee_id) ;;
  for_each
    (fun e : ObjectId * Feedback.t =>
       let fb := snd e in
       mgr <- User_find_one
                (has_employee_id (Feedback.manager_employee_id fb)) ;;
       ret (from_feedback (fst e) fb (name_or_unknown mgr)
              (Some (comments_html fb))))
    fbs.

Definition acknowledge (now : datetime) (feedback_id : ObjectId)
    : M string :=
  fb <- Feedback_get feedback_id ;;
  fb <- require fb (HTTPException 404 "Feedback not found") ;;
  let fb := Feedback.set_acknowledged true fb in
  Feedback_save feedback_id fb ;;;
  mgr <- User_find_one
           (has_employee_id (Feedback.manager_employee_id fb)) ;;
  when_some mgr (fun mgr =>
    Notification_insert
      (Notification.create now
         (Feedback.manager_employee_id fb)
         (Feedback.manager_employee_id fb)
         (User.name mgr)
         (String.append "Employee "
            (String.append (Feedback.employee_id fb)
                           " acknowledged your feedback."))) ;;;
    ret tt) ;;;
  ret "Feedback acknowledged".

(** The assignments of [update_feedback] to the fetched document. *)
Definition apply_update (upd : FeedbackCreate.t) (fb : Feedback.t)
    : Feedback.t :=
  Feedback.mk
    (Feedback.employee_id fb)
    (Feedback.manager_employee_id fb)
    (FeedbackCreate.strengths upd)
    (FeedbackCreate.improvement upd)
    (FeedbackCreate.sentiment upd)
    (FeedbackCreate.anonymous upd)
    (or_empty (FeedbackCreate.tags upd))
    (Feedback.acknowledged fb)
    (Feedback.comments fb)
    (Feedback.created_at fb).

Definition update_feedback (feedback_id : ObjectId) (upd : FeedbackCreate.t)
    : M FeedbackOut :=
  fb <- Feedback_get feedback_id ;;
  fb <- require fb (HTTPException 404 "Feedback not found") ;;
  mgr <- User_find_one
           (is_manager (FeedbackCreate.manager_employee_id upd)) ;;
  mgr <- require_that mgr
           (fun mgr => Feedback.manager_employee_id fb =? User.employee_id mgr)
           (HTTPException 403 "Not authorized") ;;
  let fb := apply_update upd fb in
  Feedback_save feedback_id fb ;;;
  ret (from_feedback feedback_id fb (User.name mgr) None).

Definition delete_feedback (feedback_id : ObjectId) : M string :=
  fb <- Feedback_get feedback_id ;;
  fb <- require fb (HTTPException 404 "Feedback not found") ;;
  mgr <- User_find_one (is_manager (Feedback.manager_employee_id fb)) ;;
  mgr <- require mgr (HTTPException 403 "Not authorized") ;;
  Feedback_delete feedback_id ;;;
  ret "Deleted".

(** The message is [f"Deleted {deleted} items"], where [deleted] is the
    object the bulk delete returned. *)
Definition delete_all (manager_id : string) : M (list fragment) :=
  mgr <- User_find_one (is_manager manager_id) ;;
  mgr <- require mgr (HTTPException 403 "Not authorized") ;;
  deleted <- Feedback_find_delete
               (fun fb => Feedback.manager_employee_id fb =? manager_id) ;;
  ret [Text "Deleted "; Formatted deleted; Text " items"].

Definition comment (now : datetime) (feedback_id : ObjectId)
    (c : CommentIn.t) : M string :=
  fb <- Feedback_get feedback_id ;;
  fb <- require fb (HTTPException 404 "Feedback not found") ;;
  emp <- User_find_one (has_employee_id (CommentIn.employee_id c)) ;;
  emp <- require_that emp
           (fun emp => User.role emp =? "employee")
           (HTTPException 403 "Not authorized") ;;
  let fb := Feedback.set_comments
              (Feedback.comments fb
                 ++ [Comment.mk (CommentIn.employee_id c) (CommentIn.text c)])
              fb in
  Feedback_save feedback_id fb ;;;
  mgr <- User_find_one
           (has_employee_id (Feedback.manager_employee_id fb)) ;;
  when_some mgr (fun mgr =>
    Notification_insert
      (Notification.create now
         (Feedback.manager_employee_id fb)
         (Feedback.manager_employee_id fb)
         (User.name mgr)
         (String.append "Employee "
            (String.append (CommentIn.employee_id c)
                           " commented on your feedback."))) ;;;
    ret tt) ;;;
  ret "Comment added".

Definition get_manager_feedback_history (manager_id : string)
    : M (list FeedbackOut) :=
  mgr <- User_find_one (is_manager manager_id) ;;
  mgr <- require mgr (HTTPException 404 "Manager not found") ;;
  fbs <- Feedback_find
           (fun fb => Feedback.manager_employee_id fb =? manager_id) ;;
  for_each
    (fun e : ObjectId * Feedback.t =>
       ret (from_feedback (fst e) (snd e) (User.name mgr)
              (Some (comments_html (snd e)))))
    fbs.

Definition update_notification_seen (notification_id : ObjectId)
    (seen : bool) : M string :=
  notif <- Notification_get notification_id ;;
  notif <- require notif (HTTPException 404 "Notification not found") ;;
  let notif := Notification.set_seen seen notif in
  Notification_save notification_id notif ;;;
  ret "Notification updated".

Definition mark_all_seen (employee_id : string) : M string :=
  Notification_find_update_many
    (fun n => Notification.employee_id n =? employee_id)
    (Notification.set_seen true) ;;;
  ret "All notifications marked as seen".

(** *** The router as a whole *)

Inductive request : Type :=
| CreateFeedback (payload : FeedbackCreate.t)
| RequestFeedback (payload : FeedbackRequestIn.t)
| MarkFeedbackRequestSeen (request_id : ObjectId)
| CountUnseenRequests (manager_id : string)
| GetFeedbackHistory (employee_id : string)
| Acknowledge (feedback_id : ObjectId)
| UpdateFeedback (feedback_id : ObjectId) (upd : FeedbackCreate.t)
| DeleteFeedback (feedback_id : ObjectId)
| DeleteAll (manager_id : string)
| AddComment (feedback_id : ObjectId) (c : CommentIn.t)
| GetManagerFeedbackHistory (manager_id : string)
| UpdateNotificationSeen (notification_id : ObjectId) (seen : bool)
| MarkAllSeen (employee_id : string).

(** The store after a request, whatever the response was. *)
Definition run (now : datetime) (r : request) (db : DB) : DB :=
  match r with
  | CreateFeedback p => snd (create_feedback now p db)
  | RequestFeedback p => snd (request_feedback now p db)
  | MarkFeedbackRequestSeen i => snd (mark_feedback_request_seen i db)
  | CountUnseenRequests m => snd (count_unseen_requests m db)
  | GetFeedbackHistory e => snd (get_feedback_history e db)
  | Acknowledge i => snd (acknowledge now i db)
  | UpdateFeedback i upd => snd (update_feedback i upd db)
  | DeleteFeedback i => snd (delete_feedback i db)
  | DeleteAll m => snd (delete_all m db)
  | AddComment i c => snd (comment now i c db)
  | GetManagerFeedbackHistory m => snd (get_manager_feedback_history m db)
  | UpdateNotificationSeen i s => snd (update_notification_seen i s db)
  | MarkAllSeen e => snd (mark_all_seen e db)
  end.

(** A sequence of requests, each with the clock reading of its handler. *)
Fixpoint run_all (rs : list (datetime * request)) (db : DB) : DB :=
  match rs with
  | [] => db
  | (now, r) :: rs' => run_all rs' (run now r db)
  end.

End Router.

Arguments create_feedback {FeedbackOut} from_feedback now payload db.
Arguments update_feedback {FeedbackOut} from_feedback feedback_id upd db.
Arguments get_feedback_history {FeedbackOut} from_feedback markdown employee_id db.
Arguments get_manager_feedback_history {FeedbackOut} from_feedback markdown manager_id db.
Arguments run {FeedbackOut} from_feedback markdown now r db.
Arguments run_all {FeedbackOut} from_feedback markdown rs db.

(** ** Well-formed stores *)

(** Identifiers are unique within a collection and were all handed out
    already (they are below [next_id]). *)
Fixpoint unique_ids (ids : list ObjectId) : bool :=
  match ids with
  | [] => true
  | i :: rest => negb (existsb (Nat.eqb i) rest) && unique_ids rest
  end.

Definition wf_collection {D : Type} (next : ObjectId) (c : collection D)
  : bool :=
  unique_ids (map fst c) && forallb (fun i => i <? next)%nat (map fst c).

Definition wf_feedbacks (db : DB) : bool :=
  wf_collection (next_id db) (feedbacks db).

(** What one request can do to the feedback collection: nothing, insert a
    document under the next identifier, save a stored document with comments
    added at the end, or delete documents.  [next] and [next'] are the next
    identifier before and after. *)
Inductive feedbacks_step (next : ObjectId) (c : collection Feedback.t)
  : ObjectId -> collection Feedback.t -> Prop :=
| step_same next' :
    next <= next' ->
    feedbacks_step next c next' c
| step_insert next' fb :
    next < next' ->
    feedbacks_step next c next' (Store.insert c next fb)
| step_save next' id fb fb' extra :
    next <= next' ->
    Store.get c id = Some fb ->
    Feedback.comments fb' = Feedback.comments fb ++ extra ->
    feedbacks_step next c next' (Store.save c id fb')
| step_delete next' (keep : ObjectId * Feedback.t -> bool) :
    next <= next' ->
    feedbacks_step next c next' (filter keep c).

(** ** Reads *)

(** The requests whose handlers only read. *)
Definition is_read (r : request) : bool :=
  match r with
  | CountUnseenRequests _
  | GetFeedbackHistory _
  | GetManagerFeedbackHistory _ => true
  | _ => false
  end.

(** ** A concrete instance, for examples *)

Module Sample.

(** The freest choice of [FeedbackOut]: the arguments of [from_feedback]. *)
Record view := View {
  view_id : ObjectId;
  view_feedback : Feedback.t;
  view_manager_name : string;
  view_comments : option (list Comment.t)
}.

Definition html (s : string) : string :=
  String.append "<p>" (String.append s "</p>").

Definition alice := User.mk "M1" "Alice" "manager".
Definition bob := User.mk "M2" "Bob" "manager".
Definition eve := User.mk "E1" "Eve" "employee".

Definition directory : list User.t := [alice; bob; eve].

(** No documents yet. *)
Definition db0 : DB := mkDB directory [] [] [] 0.

(** A store nobody is registered in. *)
Definition db_nobody : DB := mkDB [] [] [] [] 0.

Definition praise : FeedbackCreate.t :=
  FeedbackCreate.mk "E1" "M1" "clear code" "more tests" "positive" false
                    (Some ["quality"]).

Definition rewrite_by_bob : FeedbackCreate.t :=
  FeedbackCreate.mk "E1" "M2" "none" "everything" "negative" true None.

Definition rewrite_by_alice : FeedbackCreate.t :=
  FeedbackCreate.mk "E1" "M1" "steady" "reviews" "neutral" true None.

Definition ask : FeedbackRequestIn.t :=
  FeedbackRequestIn.mk "E1" "M1" "please review".

(** [db0] after Alice's feedback to Eve: feedback 0, notification 1. *)
Definition db1 : DB :=
  snd (create_feedback View (milliseconds 10) praise db0).

(** A feedback whose manager has left the directory. *)
Definition orphan : Feedback.t :=
  Feedback.mk "E1" "M9" "s" "i" "neutral" false [] false []
              (milliseconds 5).

Definition db_orphan : DB := mkDB directory [(0, orphan)] [] [] 1.

Definition first_comment : CommentIn.t := CommentIn.mk "E1" "thanks".
Definition second_comment : CommentIn.t := CommentIn.mk "E1" "will do".

(** The feedback stored in [db1]. *)
Definition praise_feedback : Feedback.t :=
  Feedback.mk "E1" "M1" "clear code" "more tests" "positive" false
              ["quality"] false [] (milliseconds 10).

(** [db1] after Eve acknowledged the feedback and commented on it. *)
Definition db2 : DB :=
  run_all View html
    [(milliseconds 11, Acknowledge 0);
     (milliseconds 12, AddComment 0 first_comment)]
    db1.

(** The feedback stored in [db2]. *)
Definition read_feedback : Feedback.t :=
  Feedback.mk "E1" "M1" "clear code" "more tests" "positive" false
              ["quality"] true [Comment.mk "E1" "thanks"] (milliseconds 10).

End Sample.

(** * The listings, the export, and what a request may change *)

(** ** Listings *)

(** The dictionaries [get_feedback_requests] returns. *)
Module RequestOut.
Record t := mk {
  id : ObjectId;
  employee_id : string;
  message : string;
  seen : bool;
  created_at : datetime
}.
End RequestOut.

(** The dictionaries [get_notifications] returns. *)
Module NotificationOut.
Record t := mk {
  id : ObjectId;
  employee_id : string;
  manager_employee_id : string;
  manager_name : string;
  message : string;
  seen : bool;
  created_at : datetime
}.
End NotificationOut.

(** [.sort("-created_at")]: the documents found, newest first.  Documents of
    equal [created_at] keep the order the store has them in. *)
Section Sorting.
Context {D : Type}.
Variable created_at : D -> datetime.

Fixpoint insert_desc (e : ObjectId * D) (l : collection D) : collection D :=
  match l with
  | [] => [e]
  | x :: l' =>
      if (created_at (snd e) <? created_at (snd x))%nat
      then x :: insert_desc e l'
      else e :: l
  end.

Definition sort_desc (l : collection D) : collection D :=
  fold_right insert_desc [] l.

Definition newer_first (a b : ObjectId * D) : Prop :=
  created_at (snd b) <= created_at (snd a).
End Sorting.

Definition FeedbackRequest_find_sort_desc (p : FeedbackRequest.t -> bool)
  : M (collection FeedbackRequest.t) :=
  fun db =>
    (Ok (sort_desc FeedbackRequest.created_at
           (Store.find_many p (feedback_requests db))),
     db).

Definition Notification_find_sort_desc (p : Notification.t -> bool)
  : M (collection Notification.t) :=
  fun db =>
    (Ok (sort_desc Notification.created_at
           (Store.find_many p (notifications db))),
     db).

Definition request_out (req : ObjectId * FeedbackRequest.t) : RequestOut.t :=
  RequestOut.mk
    (fst req)
    (FeedbackRequest.employee_id (snd req))
    (FeedbackRequest.message (snd req))
    (FeedbackRequest.seen (snd req))
    (FeedbackRequest.created_at (snd req)).

Definition get_feedback_requests (manager_id : string)
  : M (list RequestOut.t) :=
  mgr <- User_find_one (is_manager manager_id) ;;
  mgr <- require mgr (HTTPException 404 "Manager not found") ;;
  requests <- FeedbackRequest_find_sort_desc
                (fun r => FeedbackRequest.manager_employee_id r =? manager_id) ;;
  ret (map request_out requests).

Definition notification_out (n : ObjectId * Notification.t)
  : NotificationOut.t :=
  NotificationOut.mk
    (fst n)
    (Notification.employee_id (snd n))
    (Notification.manager_employee_id (snd n))
    (Notification.manager_name (snd n))
    (Notification.message (snd n))
    (Notification.seen (snd n))
    (Notification.created_at (snd n)).

Definition get_notifications (employee_id : string)
  : M (list NotificationOut.t) :=
  notifs <- Notification_find_sort_desc
              (fun n => Notification.employee_id n =? employee_id) ;;
  ret (map notification_out notifs).

Definition one_if (b : bool) : nat := if b then 1 else 0.

(** ** The export *)

(** What [export_pdf] tells the canvas, in order. *)
Inductive canvas_op : Type :=
| DrawString (x y : Z) (text : string)
| ShowPage
| Save.

Section PdfExport.

(** [str.upper] *)
Variable upper : string -> string.

(** [f"{fb.sentiment.upper()} - {fb.strengths} | {fb.improvement}"] *)
Definition export_line (fb : Feedback.t) : string :=
  String.append (upper (Feedback.sentiment fb))
    (String.append " - "
       (String.append (Feedback.strengths fb)
          (String.append " | " (Feedback.improvement fb)))).

(** The loop of [export_pdf]: [p] is what the canvas was told so far, [y]
    the height of the next line. *)
Fixpoint export_loop (fbs : list Feedback.t) (y : Z) (p : list canvas_op)
  : list canvas_op :=
  match fbs with
  | [] => p
  | fb :: rest =>
      let p := p ++ [DrawString 100 y (export_line fb)] in
      let y := (y - 20)%Z in
      if (y <? 50)%Z
      then export_loop rest 800%Z (p ++ [ShowPage])
      else export_loop rest y p
  end.

(** The response streams the document the canvas wrote; the handler returns
    what it told the canvas. *)
Definition export_pdf (employee_id : string) : M (list canvas_op) :=
  fbs <- Feedback_find (fun fb => Feedback.employee_id fb =? employee_id) ;;
  let p := [DrawString 100 800
              (String.append "Feedback Report for Employee ID: " employee_id)] in
  let p := export_loop (map snd fbs) 780%Z p in
  ret (p ++ [Save]).

End PdfExport.

(** The lines drawn, page by page: each [ShowPage] closes a page. *)
Fixpoint pages_of (ops : list canvas_op) (page : list string)
  : list (list string) :=
  match ops with
  | [] => [page]
  | DrawString _ _ text :: ops' => pages_of ops' (page ++ [text])
  | ShowPage :: ops' => page :: pages_of ops' []
  | Save :: ops' => pages_of ops' page
  end.

(** A line is drawn at the left margin, between the bottom and the top of
    the page. *)
Definition on_page (op : canvas_op) : Prop :=
  match op with
  | DrawString x y _ => x = 100%Z /\ (60 <= y <= 800)%Z
  | ShowPage | Save => True
  end.

(** ** What a request may change *)

(** What stays of a feedback while it is stored. *)
Definition feedback_kept (fb fb' : Feedback.t) : Prop :=
  Feedback.employee_id fb' = Feedback.employee_id fb
  /\ Feedback.manager_employee_id fb' = Feedback.manager_employee_id fb
  /\ Feedback.created_at fb' = Feedback.created_at fb
  /\ (Feedback.acknowledged fb = true -> Feedback.acknowledged fb' = true).

(** What stays of a feedback request. *)
Definition request_kept (r r' : FeedbackRequest.t) : Prop :=
  FeedbackRequest.employee_id r' = FeedbackRequest.employee_id r
  /\ FeedbackRequest.manager_employee_id r'
     = FeedbackRequest.manager_employee_id r
  /\ FeedbackRequest.message r' = FeedbackRequest.message r
  /\ FeedbackRequest.created_at r' = FeedbackRequest.created_at r
  /\ (FeedbackRequest.seen r = true -> FeedbackRequest.seen r' = true).

(** What stays of a notification: all but [seen]. *)
Definition notification_kept (n n' : Notification.t) : Prop :=
  Notification.employee_id n' = Notification.employee_id n
  /\ Notification.manager_employee_id n' = Notification.manager_employee_id n
  /\ Notification.manager_name n' = Notification.manager_name n
  /\ Notification.message n' = Notification.message n
  /\ Notification.created_at n' = Notification.created_at n.

(** One request's effect on a collection: nothing, one insert under an
    identifier not handed out before, one save of a stored document, one bulk
    update, or (where [deletes] allows) a delete.  [kept] relates a document
    to what is stored in its place. *)
Inductive evolves {D : Type} (kept : D -> D -> Prop) (deletes : bool)
    (next : ObjectId) (c : collection D)
  : ObjectId -> collection D -> Prop :=
| evolves_same next' :
    next <= next' ->
    evolves kept deletes next c next' c
| evolves_insert next' id d :
    next <= id -> id < next' ->
    evolves kept deletes next c next' (Store.insert c id d)
| evolves_save next' id d d' :
    next <= next' ->
    Store.get c id = Some d ->
    kept d d' ->
    evolves kept deletes next c next' (Store.save c id d')
| evolves_update next' (p : D -> bool) (f : D -> D) :
    next <= next' ->
    (forall d, kept d (f d)) ->
    evolves kept deletes next c next' (Store.update_many p f c)
| evolves_delete next' (keep : ObjectId * D -> bool) :
    deletes = true ->
    next <= next' ->
    evolves kept deletes next c next' (filter keep c).

(** ** A second instance, for examples *)

Module Shift.

(** Eve asks Alice twice and Bob once. *)
Definition ask_again : FeedbackRequestIn.t :=
  FeedbackRequestIn.mk "E1" "M1" "any news?".

Definition ask_bob : FeedbackRequestIn.t :=
  FeedbackRequestIn.mk "E1" "M2" "a second opinion".

(** Requests 0, 2 (to Alice) and 4 (to Bob); notifications 1, 3 and 5. *)
Definition db3 : DB :=
  run_all Sample.View Sample.html
    [(milliseconds 20, RequestFeedback Sample.ask);
     (milliseconds 21, RequestFeedback ask_again);
     (milliseconds 22, RequestFeedback ask_bob)]
    Sample.db0.

(** [Sample.db2] after Eve's second comment and after Alice read the
    acknowledgement notice. *)
Definition db4 : DB :=
  run_all Sample.View Sample.html
    [(milliseconds 14, AddComment 0 Sample.second_comment);
     (milliseconds 15, UpdateNotificationSeen 2 true)]
    Sample.db2.

Definition shout (s : string) : string := String.append s "!".

(** Alice rewrites her feedback and tags it. *)
Definition retag_by_alice : FeedbackCreate.t :=
  FeedbackCreate.mk "E1" "M1" "steady" "reviews" "neutral" true
                    (Some ["urgent"; "q3"]).

(** A manager and an employee registered under one identifier, the manager
    first; Alice has given the employee a feedback. *)
Definition mara := User.mk "X1" "Mara" "manager".
Definition xena := User.mk "X1" "Xena" "employee".

Definition praise_for_xena : Feedback.t :=
  Feedback.mk "X1" "M1" "clear code" "more tests" "positive" false
              [] false [] (milliseconds 10).

Definition db_shared : DB :=
  mkDB [Sample.alice; mara; xena] [(0, praise_for_xena)] [] [] 1.

(** Forty feedbacks of Eve by Alice. *)
Definition db_many : DB :=
  mkDB Sample.directory
       (map (fun i => (i, Sample.praise_feedback)) (seq 0 40))
       [] [] 40.

End Shift.
(** * Facts *)

(** ** The store *)

Section StoreFacts.
Context {D : Type}.
Implicit Types (c : collection D) (id : ObjectId) (d : D).

Lemma get_In c id d : Store.get c id = Some d -> In (id, d) c.
Proof.
  unfold Store.get.
  destruct (find (Store.has_id id) c) as [[i x]|] eqn:F; simpl; [|discriminate].
  intros [= <-].
  apply find_some in F as [Hin Hid].
  unfold Store.has_id in Hid; simpl in Hid.
  apply Nat.eqb_eq in Hid; subst i; exact Hin.
Qed.

Lemma get_some_exists c id d :
  Store.get c id = Some d -> existsb (Store.has_id id) c = true.
Proof.
  intros H. apply existsb_exists. exists (id, d). split.
  - now apply get_In.
  - unfold Store.has_id; simpl. apply Nat.eqb_refl.
Qed.

Lemma get_save_same c id d : Store.get (Store.save c id d) id = Some d.
Proof.
  unfold Store.save, Store.get, Store.has_id.
  destruct (existsb _ c) eqn:E.
  - induction c as [|[i x] c IH]; simpl in *; [discriminate|].
    destruct (Nat.eqb i id) eqn:Hi; simpl.
    + now rewrite Nat.eqb_refl.
    + rewrite Hi. now apply IH.
  - induction c as [|[i x] c IH]; simpl in *.
    + now rewrite Nat.eqb_refl.
    + apply orb_false_iff in E as [E1 E2].
      rewrite E1. now apply IH.
Qed.

Lemma get_save_other c id id' d :
  id' <> id -> Store.get (Store.save c id d) id' = Store.get c id'.
Proof.
  intros Hne. unfold Store.save, Store.get, Store.has_id.
  assert (Hid : Nat.eqb id id' = false) by (apply Nat.eqb_neq; congruence).
  destruct (existsb _ c).
  - induction c as [|[i x] c IH]; simpl; [reflexivity|].
    destruct (Nat.eqb i id) eqn:Hi; simpl.
    + apply Nat.eqb_eq in Hi; subst i.
      rewrite Hid. exact IH.
    + destruct (Nat.eqb i id'); [reflexivity | exact IH].
  - induction c as [|[i x] c IH]; simpl.
    + now rewrite Hid.
    + destruct (Nat.eqb i id'); [reflexivity | exact IH].
Qed.

Lemma get_insert_some c id id' d d' :
  Store.get c id = Some d -> Store.get (Store.insert c id' d') id = Some d.
Proof.
  unfold Store.get, Store.insert.
  induction c as [|e c IH]; simpl; [discriminate|].
  destruct (Store.has_id id e); [trivial | exact IH].
Qed.

Lemma get_delete_same c id : Store.get (Store.delete c id) id = None.
Proof.
  unfold Store.get, Store.delete, Store.has_id.
  induction c as [|e c IH]; simpl; [reflexivity|].
  destruct (Nat.eqb (fst e) id) eqn:E; simpl; [exact IH|].
  now rewrite E.
Qed.

Lemma get_delete_other c id id' :
  id' <> id -> Store.get (Store.delete c id) id' = Store.get c id'.
Proof.
  intros Hne. unfold Store.get, Store.delete, Store.has_id.
  induction c as [|[i x] c IH]; simpl; [reflexivity|].
  destruct (Nat.eqb i id) eqn:Hi; simpl.
  - apply Nat.eqb_eq in Hi; subst i.
    replace (Nat.eqb id id') with false
      by (symmetry; apply Nat.eqb_neq; congruence).
    exact IH.
  - destruct (Nat.eqb i id'); [reflexivity | exact IH].
Qed.

(** What a bulk delete leaves and what it counts. *)
Lemma delete_many_spec (p : D -> bool) c :
  let (rest, deleted) := Store.delete_many p c in
  (forall e, In e rest <-> In e c /\ p (snd e) = false)
  /\ deleted = List.length (filter (fun e => p (snd e)) c)
  /\ List.length c = List.length rest + deleted.
Proof.
  unfold Store.delete_many, Store.find_many. split; [|split].
  - intros e. rewrite filter_In, negb_true_iff. tauto.
  - reflexivity.
  - induction c as [|e c IH]; simpl; [reflexivity|].
    destruct (p (snd e)); simpl; lia.
Qed.

Lemma delete_many_none (p : D -> bool) c :
  (forall e, In e c -> p (snd e) = false) ->
  Store.delete_many p c = (c, 0).
Proof.
  intros H. unfold Store.delete_many, Store.find_many.
  induction c as [|e c IH]; simpl; [reflexivity|].
  rewrite (H e (or_introl eq_refl)); simpl.
  assert (IH' := IH (fun e' He' => H e' (or_intror He'))).
  now inversion IH' as [[E1 E2]]; rewrite !E1, ?E2.
Qed.

End StoreFacts.

(** ** The Directory *)

Arguments lookup : simpl never.
Arguments to_milliseconds : simpl never.

Lemma lookup_some (p : User.t -> bool) (db : DB) (u : User.t) :
  lookup p db = Some u -> p u = true.
Proof. unfold lookup. intros H. now apply find_some in H. Qed.

Lemma is_manager_true (id : string) (u : User.t) :
  is_manager id u = true ->
  User.employee_id u = id /\ User.role u = "manager".
Proof.
  unfold is_manager. rewrite andb_true_iff, !String.eqb_eq. tauto.
Qed.

Lemma is_employee_true (id : string) (u : User.t) :
  is_employee id u = true ->
  User.employee_id u = id /\ User.role u = "employee".
Proof.
  unfold is_employee. rewrite andb_true_iff, !String.eqb_eq. tauto.
Qed.

(** Unfolds a handler down to the store. *)
Ltac unfold_handler :=
  cbv beta iota zeta delta
    [bind ret raise require require_that when_some
     User_find_one
     Feedback_get Feedback_insert Feedback_save Feedback_delete
     Feedback_find Feedback_find_delete
     FeedbackRequest_get FeedbackRequest_insert FeedbackRequest_save
     FeedbackRequest_find_count
     Notification_get Notification_insert Notification_save
     Notification_find_update_many].

(** ** The handlers *)

Section RouterFacts.

Context {FeedbackOut : Type}.
Variable from_feedback :
  ObjectId -> Feedback.t -> string -> option (list Comment.t) -> FeedbackOut.
Variable markdown : string -> string.

(** C1. When the Directory resolves [manager_employee_id] to a manager and
    [employee_id] to an employee, [create_feedback] returns normally, adds
    exactly one feedback (not acknowledged, no comments) and exactly one
    notification, whose recipient is the employee and whose message is
    "You have received new feedback from manager " followed by the
    manager's name; nothing else in the store changes.  When either lookup
    finds nobody it raises 404 and the store is left as it was. *)
Theorem create_feedback_one_feedback_one_notification
    (now : datetime) (payload : FeedbackCreate.t) (db : DB) :
  (forall mgr emp,
      lookup (is_manager (FeedbackCreate.manager_employee_id payload)) db
        = Some mgr ->
      lookup (is_employee (FeedbackCreate.employee_id payload)) db
        = Some emp ->
      exists fb n out,
        create_feedback from_feedback now payload db
        = (Ok out,
           mkDB (users db)
                (feedbacks db ++ [(next_id db, fb)])
                (feedback_requests db)
                (notifications db ++ [(S (next_id db), n)])
                (S (S (next_id db))))
        /\ Feedback.employee_id fb = FeedbackCreate.employee_id payload
        /\ Feedback.manager_employee_id fb
             = FeedbackCreate.manager_employee_id payload
        /\ Feedback.acknowledged fb = false
        /\ Feedback.comments fb = []
        /\ Notification.employee_id n = FeedbackCreate.employee_id payload
        /\ Notification.message n
             = String.append "You have received new feedback from manager "
                             (User.name mgr))
  /\ (lookup (is_manager (FeedbackCreate.manager_employee_id payload)) db
        = None
      \/ lookup (is_employee (FeedbackCreate.employee_id payload)) db
        = None ->
      exists r,
        create_feedback from_feedback now payload db = (r, db)
        /\ NotFound r).
Proof.
  split.
  - intros mgr emp Hm He.
    unfold create_feedback. unfold_handler.
    rewrite Hm. unfold_handler. rewrite He. unfold_handler.
    do 3 eexists. split; [reflexivity|]. simpl. repeat split.
  - unfold create_feedback. unfold_handler.
    intros [Hm | He].
    + rewrite Hm. eexists; split; [reflexivity|]. now eexists.
    + destruct (lookup (is_manager _) db); unfold_handler;
        [rewrite He|]; (eexists; split; [reflexivity|]; now eexists).
Qed.

(** C2. For a stored feedback and a [manager_employee_id] other than the
    one stored in it, [update_feedback] raises 403 and the store, hence the
    feedback, is left exactly as it was. *)
Theorem update_feedback_other_manager_forbidden
    (feedback_id : ObjectId) (upd : FeedbackCreate.t) (db : DB)
    (fb : Feedback.t) :
  Store.get (feedbacks db) feedback_id = Some fb ->
  FeedbackCreate.manager_employee_id upd <> Feedback.manager_employee_id fb ->
  update_feedback from_feedback feedback_id upd db
    = (Raise (HTTPException 403 "Not authorized"), db)
  /\ Forbidden (fst (update_feedback from_feedback feedback_id upd db))
  /\ Store.get
       (feedbacks (snd (update_feedback from_feedback feedback_id upd db)))
       feedback_id
     = Some fb.
Proof.
  intros Hget Hne.
  assert (E : update_feedback from_feedback feedback_id upd db
              = (Raise (HTTPException 403 "Not authorized"), db)).
  { unfold update_feedback. unfold_handler. rewrite Hget. unfold_handler.
    destruct (lookup (is_manager _) db) as [mgr|] eqn:Hm; [|reflexivity].
    apply lookup_some, is_manager_true in Hm as [Hid _].
    replace (Feedback.manager_employee_id fb =? User.employee_id mgr)
      with false; [reflexivity|].
    symmetry. apply String.eqb_neq. congruence. }
  rewrite E. simpl. repeat split; [now eexists | exact Hget].
Qed.

(** C4 (as amended). [request_feedback] raises 404 in exactly the cases in
    which [create_feedback] does for the same pair of identifiers, and
    unless both lookups fail the two raise the same exception; when both
    fail, [request_feedback] reports the employee and [create_feedback] the
    manager.  A failed request leaves the store as it was.  On success it
    adds one request with [seen = false] and one notification whose
    [employee_id] and [manager_employee_id] are both the manager's
    identifier. *)
Theorem request_feedback_validation_and_effect
    (now : datetime) (payload : FeedbackRequestIn.t)
    (fc : FeedbackCreate.t) (db : DB) :
  FeedbackCreate.employee_id fc = FeedbackRequestIn.employee_id payload ->
  FeedbackCreate.manager_employee_id fc
    = FeedbackRequestIn.manager_employee_id payload ->
  (NotFound (fst (request_feedback now payload db))
   <-> NotFound (fst (create_feedback from_feedback now fc db)))
  /\ (lookup (is_employee (FeedbackRequestIn.employee_id payload)) db
        <> None
      \/ lookup (is_manager (FeedbackRequestIn.manager_employee_id payload)) db
        <> None ->
      forall e,
        fst (request_feedback now payload db) = Raise e
        <-> fst (create_feedback from_feedback now fc db) = Raise e)
  /\ (lookup (is_employee (FeedbackRequestIn.employee_id payload)) db
        = None ->
      lookup (is_manager (FeedbackRequestIn.manager_employee_id payload)) db
        = None ->
      fst (request_feedback now payload db)
        = Raise (HTTPException 404 "Employee not found")
      /\ fst (create_feedback from_feedback now fc db)
        = Raise (HTTPException 404 "Manager not found"))
  /\ (forall e,
        fst (request_feedback now payload db) = Raise e ->
        snd (request_feedback now payload db) = db)
  /\ (forall emp mgr,
        lookup (is_employee (FeedbackRequestIn.employee_id payload)) db
          = Some emp ->
        lookup (is_manager (FeedbackRequestIn.manager_employee_id payload)) db
          = Some mgr ->
        exists fr n,
          request_feedback now payload db
          = (Ok "Feedback request submitted successfully",
             mkDB (users db)
                  (feedbacks db)
                  (feedback_requests db ++ [(next_id db, fr)])
                  (notifications db ++ [(S (next_id db), n)])
                  (S (S (next_id db))))
          /\ FeedbackRequest.employee_id fr
               = FeedbackRequestIn.employee_id payload
          /\ FeedbackRequest.manager_employee_id fr
               = FeedbackRequestIn.manager_employee_id payload
          /\ FeedbackRequest.seen fr = false
          /\ Notification.employee_id n
               = FeedbackRequestIn.manager_employee_id payload
          /\ Notification.manager_employee_id n
               = FeedbackRequestIn.manager_employee_id payload).
Proof.
  intros He Hm.
  unfold NotFound, request_feedback, create_feedback. rewrite He, Hm.
  unfold_handler.
  destruct (lookup (is_employee _) db) as [emp|] eqn:Le;
    destruct (lookup (is_manager _) db) as [mgr|] eqn:Lm;
    unfold_handler; rewrite ?Le, ?Lm; unfold_handler; simpl fst; simpl snd.
  - repeat split; try (intros [m H]; discriminate H);
      try (intros; discriminate).
    intros emp' mgr' [= <-] [= <-]. do 2 eexists.
    split; [reflexivity|]. simpl. repeat split.
  - repeat split; intros; try discriminate; try congruence;
      now eexists.
  - repeat split; intros; try discriminate; try congruence;
      now eexists.
  - repeat split; intros; try discriminate; try (now eexists);
      match goal with H : _ \/ _ |- _ => destruct H; congruence end.
Qed.


(** *** Reading the history *)

Lemma for_each_pure {A B : Type} (g : A -> DB -> B) (xs : list A)
    (db : DB) :
  for_each (fun x db' => (Ok (g x db'), db')) xs db
  = (Ok (map (fun x => g x db) xs), db).
Proof.
  induction xs as [|x xs IH]; simpl; [reflexivity|].
  unfold_handler. now rewrite IH.
Qed.

Lemma get_feedback_history_eval (employee_id : string) (db : DB) :
  get_feedback_history from_feedback markdown employee_id db
  = (Ok (map (fun e : ObjectId * Feedback.t =>
                from_feedback (fst e) (snd e)
                  (name_or_unknown
                     (lookup (has_employee_id
                                (Feedback.manager_employee_id (snd e))) db))
                  (Some (comments_html markdown (snd e))))
             (Store.find_many
                (fun fb => Feedback.employee_id fb =? employee_id)
                (feedbacks db))),
     db).
Proof.
  unfold get_feedback_history. unfold_handler.
  exact (for_each_pure
           (fun (e : ObjectId * Feedback.t) d =>
              from_feedback (fst e) (snd e)
                (name_or_unknown
                   (lookup (has_employee_id
                              (Feedback.manager_employee_id (snd e))) d))
                (Some (comments_html markdown (snd e))))
           _ db).
Qed.

Lemma get_manager_feedback_history_eval (manager_id : string) (db : DB)
    (mgr : User.t) :
  lookup (is_manager manager_id) db = Some mgr ->
  get_manager_feedback_history from_feedback markdown manager_id db
  = (Ok (map (fun e : ObjectId * Feedback.t =>
                from_feedback (fst e) (snd e) (User.name mgr)
                  (Some (comments_html markdown (snd e))))
             (Store.find_many
                (fun fb => Feedback.manager_employee_id fb =? manager_id)
                (feedbacks db))),
     db).
Proof.
  intros Hm. unfold get_manager_feedback_history. unfold_handler.
  rewrite Hm. unfold_handler.
  exact (for_each_pure
           (fun (e : ObjectId * Feedback.t) (_ : DB) =>
              from_feedback (fst e) (snd e) (User.name mgr)
                (Some (comments_html markdown (snd e))))
           _ db).
Qed.

Lemma run_read (now : datetime) (r : request) (db : DB) :
  is_read r = true -> run from_feedback markdown now r db = db.
Proof.
  destruct r; simpl; try discriminate; intros _.
  - unfold count_unseen_requests. unfold_handler.
    now destruct (lookup _ db).
  - now rewrite get_feedback_history_eval.
  - destruct (lookup (is_manager manager_id) db) as [mgr|] eqn:Hm.
    + now rewrite (get_manager_feedback_history_eval _ _ _ Hm).
    + unfold get_manager_feedback_history. unfold_handler.
      now rewrite Hm.
Qed.

Lemma run_all_reads (rs : list (datetime * request)) (db : DB) :
  forallb is_read (map snd rs) = true ->
  run_all from_feedback markdown rs db = db.
Proof.
  induction rs as [|[now r] rs IH]; simpl; [reflexivity|].
  rewrite andb_true_iff. intros [Hr Hrs].
  rewrite run_read by exact Hr. now apply IH.
Qed.

(** C10. [get_feedback_history] always returns normally and leaves the
    store alone; a feedback of that employee whose stored
    [manager_employee_id] resolves to no user is still in the result, built
    with the manager name "Unknown". *)
Theorem get_feedback_history_unknown_manager
    (employee_id : string) (db : DB) :
  exists outs,
    get_feedback_history from_feedback markdown employee_id db
      = (Ok outs, db)
    /\ forall id fb,
        In (id, fb) (feedbacks db) ->
        Feedback.employee_id fb = employee_id ->
        lookup (has_employee_id (Feedback.manager_employee_id fb)) db
          = None ->
        In (from_feedback id fb "Unknown"
              (Some (comments_html markdown fb)))
           outs.
Proof.
  eexists. split; [apply get_feedback_history_eval|].
  intros id fb Hin He Hl.
  apply in_map_iff. exists (id, fb). simpl. rewrite Hl. split; [reflexivity|].
  unfold Store.find_many. apply filter_In. split; [exact Hin|].
  simpl. now apply String.eqb_eq.
Qed.

(** *** Acknowledging *)

Lemma lookup_with_feedbacks (p : User.t -> bool)
    (c : collection Feedback.t) (db : DB) :
  lookup p (with_feedbacks c db) = lookup p db.
Proof. reflexivity. Qed.

(** One call of [acknowledge] on a stored feedback. *)
Lemma acknowledge_found (now : datetime) (feedback_id : ObjectId) (db : DB)
    (fb : Feedback.t) :
  Store.get (feedbacks db) feedback_id = Some fb ->
  exists db',
    acknowledge now feedback_id db = (Ok "Feedback acknowledged", db')
    /\ users db' = users db
    /\ Store.get (feedbacks db') feedback_id
       = Some (Feedback.set_acknowledged true fb)
    /\ (forall mgr,
          lookup (has_employee_id (Feedback.manager_employee_id fb)) db
            = Some mgr ->
          exists n,
            notifications db' = notifications db ++ [(next_id db, n)]
            /\ Notification.employee_id n = Feedback.manager_employee_id fb
            /\ Notification.manager_employee_id n
               = Feedback.manager_employee_id fb
            /\ Notification.manager_name n = User.name mgr
            /\ Notification.message n
               = String.append "Employee "
                   (String.append (Feedback.employee_id fb)
                                  " acknowledged your feedback."))
    /\ (lookup (has_employee_id (Feedback.manager_employee_id fb)) db = None ->
        notifications db' = notifications db).
Proof.
  intros Hget. unfold acknowledge. unfold_handler. rewrite Hget.
  unfold_handler. rewrite lookup_with_feedbacks.
  change (Feedback.manager_employee_id (Feedback.set_acknowledged true fb))
    with (Feedback.manager_employee_id fb).
  destruct (lookup _ db) as [mgr|] eqn:Hm; unfold_handler;
    (eexists; split; [reflexivity|]); simpl;
    (split; [reflexivity|]); (split; [apply get_save_same|]); split.
  - intros mgr' [= <-]. eexists. split; [reflexivity|]. repeat split.
  - discriminate.
  - discriminate.
  - reflexivity.
Qed.

(** C3 (as amended). [acknowledge] raises 404 for an identifier that is not
    stored.  On a stored feedback it returns normally and sets
    [acknowledged]; a second call returns normally too and the flag stays
    set.  Each of the two calls adds one notification for the manager, with
    the message "Employee {employee_id} acknowledged your feedback.", when
    the stored [manager_employee_id] resolves to a user; when it resolves to
    nobody, neither call adds a notification. *)
Theorem acknowledge_twice
    (now1 now2 : datetime) (feedback_id : ObjectId) (db : DB) :
  (Store.get (feedbacks db) feedback_id = None ->
   acknowledge now1 feedback_id db
     = (Raise (HTTPException 404 "Feedback not found"), db))
  /\ (forall fb,
        Store.get (feedbacks db) feedback_id = Some fb ->
        exists db1 db2,
          acknowledge now1 feedback_id db = (Ok "Feedback acknowledged", db1)
          /\ acknowledge now2 feedback_id db1
             = (Ok "Feedback acknowledged", db2)
          /\ option_map Feedback.acknowledged
               (Store.get (feedbacks db1) feedback_id) = Some true
          /\ option_map Feedback.acknowledged
               (Store.get (feedbacks db2) feedback_id) = Some true
          /\ (forall mgr,
                lookup (has_employee_id (Feedback.manager_employee_id fb)) db
                  = Some mgr ->
                exists n1 n2,
                  notifications db1
                    = notifications db ++ [(next_id db, n1)]
                  /\ notifications db2
                    = notifications db1 ++ [(next_id db1, n2)]
                  /\ Notification.employee_id n1
                     = Feedback.manager_employee_id fb
                  /\ Notification.employee_id n2
                     = Feedback.manager_employee_id fb
                  /\ Notification.message n1
                     = String.append "Employee "
                         (String.append (Feedback.employee_id fb)
                                        " acknowledged your feedback.")
                  /\ Notification.message n2 = Notification.message n1)
          /\ (lookup (has_employee_id (Feedback.manager_employee_id fb)) db
                = None ->
              notifications db1 = notifications db
              /\ notifications db2 = notifications db)).
Proof.
  split.
  - intros Hget. unfold acknowledge. unfold_handler. now rewrite Hget.
  - intros fb Hget.
    destruct (acknowledge_found now1 feedback_id db fb Hget)
      as (db1 & E1 & U1 & G1 & N1 & Z1).
    destruct (acknowledge_found now2 feedback_id db1 _ G1)
      as (db2 & E2 & U2 & G2 & N2 & Z2).
    assert (L : forall p, lookup p db1 = lookup p db)
      by (intros p; unfold lookup; now rewrite U1).
    simpl in N2, Z2. rewrite L in N2, Z2.
    exists db1, db2. rewrite G1, G2. simpl.
    repeat (split; [first [assumption | reflexivity]|]).
    split.
    + intros mgr Hm.
      destruct (N1 mgr Hm) as (n1 & A1 & B1 & _ & _ & C1).
      destruct (N2 mgr Hm) as (n2 & A2 & B2 & _ & _ & C2).
      exists n1, n2. rewrite C1. repeat split; assumption.
    + intros Hm. rewrite (Z2 Hm). split; apply Z1; exact Hm.
Qed.

(** *** Updating *)

(** C5. A successful [update_feedback] by the stored owner stores the
    supplied [strengths], [improvement], [sentiment], [tags] (the list that
    was supplied; the empty list when none was) and [anonymous];
    [acknowledged] and [comments] are what they were, as are the other
    fields.  Whatever reads follow, the store keeps that document and the
    employee's history shows it, with its comments rendered from the comments
    it had before the update. *)
Theorem update_feedback_replaces_fields
    (feedback_id : ObjectId) (upd : FeedbackCreate.t) (db : DB)
    (fb : Feedback.t) (mgr : User.t) :
  Store.get (feedbacks db) feedback_id = Some fb ->
  lookup (is_manager (FeedbackCreate.manager_employee_id upd)) db
    = Some mgr ->
  FeedbackCreate.manager_employee_id upd = Feedback.manager_employee_id fb ->
  exists fb' db',
    update_feedback from_feedback feedback_id upd db
      = (Ok (from_feedback feedback_id fb' (User.name mgr) None), db')
    /\ Feedback.strengths fb' = FeedbackCreate.strengths upd
    /\ Feedback.improvement fb' = FeedbackCreate.improvement upd
    /\ Feedback.sentiment fb' = FeedbackCreate.sentiment upd
    /\ Feedback.tags fb'
       = match FeedbackCreate.tags upd with
         | Some supplied => supplied
         | None => []
         end
    /\ Feedback.anonymous fb' = FeedbackCreate.anonymous upd
    /\ Feedback.acknowledged fb' = Feedback.acknowledged fb
    /\ Feedback.comments fb' = Feedback.comments fb
    /\ Feedback.employee_id fb' = Feedback.employee_id fb
    /\ Feedback.manager_employee_id fb' = Feedback.manager_employee_id fb
    /\ Feedback.created_at fb' = Feedback.created_at fb
    /\ forall reads,
        forallb is_read (map snd reads) = true ->
        let db'' := run_all from_feedback markdown reads db' in
        Store.get (feedbacks db'') feedback_id = Some fb'
        /\ exists outs,
            get_feedback_history from_feedback markdown
              (Feedback.employee_id fb) db''
              = (Ok outs, db'')
            /\ In (from_feedback feedback_id fb'
                     (name_or_unknown
                        (lookup (has_employee_id
                                   (Feedback.manager_employee_id fb)) db))
                     (Some (comments_html markdown fb)))
                  outs.
Proof.
  intros Hget Hm Hown.
  exists (apply_update upd fb).
  unfold update_feedback. unfold_handler. rewrite Hget. unfold_handler.
  rewrite Hm. unfold_handler.
  pose proof (is_manager_true _ _ (lookup_some _ _ _ Hm)) as [Hid _].
  replace (Feedback.manager_employee_id fb =? User.employee_id mgr)
    with true by (symmetry; apply String.eqb_eq; congruence).
  eexists. split; [reflexivity|].
  repeat (split; [reflexivity|]).
  intros reads Hreads. rewrite run_all_reads by exact Hreads. simpl.
  split; [apply get_save_same|].
  eexists. split; [apply get_feedback_history_eval|].
  apply in_map_iff. exists (feedback_id, apply_update upd fb).
  split; [reflexivity|].
  unfold Store.find_many. apply filter_In. simpl. split.
  - apply get_In, get_save_same.
  - apply String.eqb_refl.
Qed.

End RouterFacts.

(** ** Deleting, and the seen flags *)

(** C6. [delete_feedback] raises 404 when the identifier is not stored.  For a
    stored feedback it raises 403 exactly when the stored
    [manager_employee_id] resolves to no manager, and otherwise deletes the
    feedback; the handler is given nothing but the identifier, so who calls
    it plays no part. *)
Theorem delete_feedback_authorization (feedback_id : ObjectId) (db : DB) :
  (Store.get (feedbacks db) feedback_id = None ->
   delete_feedback feedback_id db
     = (Raise (HTTPException 404 "Feedback not found"), db))
  /\ (forall fb,
        Store.get (feedbacks db) feedback_id = Some fb ->
        (Forbidden (fst (delete_feedback feedback_id db))
         <-> lookup (is_manager (Feedback.manager_employee_id fb)) db = None)
        /\ (lookup (is_manager (Feedback.manager_employee_id fb)) db = None ->
            delete_feedback feedback_id db
              = (Raise (HTTPException 403 "Not authorized"), db))
        /\ (forall mgr,
              lookup (is_manager (Feedback.manager_employee_id fb)) db
                = Some mgr ->
              delete_feedback feedback_id db
                = (Ok "Deleted",
                   with_feedbacks (Store.delete (feedbacks db) feedback_id) db)
              /\ Store.get
                   (feedbacks (snd (delete_feedback feedback_id db)))
                   feedback_id
                 = None))
  /\ (Forbidden (fst (delete_feedback feedback_id db))
      <-> exists fb,
          Store.get (feedbacks db) feedback_id = Some fb
          /\ lookup (is_manager (Feedback.manager_employee_id fb)) db = None).
Proof.
  unfold Forbidden, delete_feedback. unfold_handler.
  destruct (Store.get (feedbacks db) feedback_id) as [fb|] eqn:Hget;
    unfold_handler.
  - destruct (lookup (is_manager (Feedback.manager_employee_id fb)) db)
      as [mgr|] eqn:Hm; unfold_handler; simpl fst; simpl snd.
    + split; [discriminate|]. split.
      * intros fb' [= <-]. rewrite Hm. split; [|split].
        -- split; [intros [m H]; discriminate H | discriminate].
        -- discriminate.
        -- intros mgr' _. split; [reflexivity|]. apply get_delete_same.
      * split; [intros [m H]; discriminate H|].
        intros (fb' & [= <-] & H). congruence.
    + split; [discriminate|]. split.
      * intros fb' [= <-]. rewrite Hm. split; [|split].
        -- split; [reflexivity | now eexists].
        -- reflexivity.
        -- discriminate.
      * split; [|now eexists].
        intros _. exists fb. now split.
  - simpl fst. split; [reflexivity|]. split; [discriminate|].
    split; [intros [m H]; discriminate H|].
    intros (fb' & H & _). discriminate H.
Qed.

(** X21. For a [manager_id] that resolves to no manager [delete_all] raises
    403 and the store is as it was.  For one that resolves to a manager it
    removes exactly the feedbacks whose [manager_employee_id] is [manager_id]
    and keeps the others and the rest of the store.  What it returns is the
    message "Deleted {deleted} items" with the object of the bulk delete
    interpolated; that object's [deleted_count] is the number removed, 0 when
    none matches, and then the store is as it was. *)
Theorem delete_all_removes_the_managers_feedback
    (manager_id : string) (db : DB) :
  (lookup (is_manager manager_id) db = None ->
   delete_all manager_id db
     = (Raise (HTTPException 403 "Not authorized"), db))
  /\ (forall mgr,
        lookup (is_manager manager_id) db = Some mgr ->
        exists deleted db',
          delete_all manager_id db
            = (Ok [Text "Deleted "; Formatted deleted; Text " items"], db')
          /\ (forall e,
                In e (feedbacks db')
                <-> In e (feedbacks db)
                    /\ Feedback.manager_employee_id (snd e) <> manager_id)
          /\ DeleteResult.deleted_count deleted
             = List.length
                 (filter (fun e : ObjectId * Feedback.t =>
                            Feedback.manager_employee_id (snd e) =? manager_id)
                         (feedbacks db))
          /\ List.length (feedbacks db)
             = List.length (feedbacks db') + DeleteResult.deleted_count deleted
          /\ users db' = users db
          /\ feedback_requests db' = feedback_requests db
          /\ notifications db' = notifications db
          /\ next_id db' = next_id db
          /\ ((forall e,
                 In e (feedbacks db) ->
                 Feedback.manager_employee_id (snd e) <> manager_id) ->
              DeleteResult.deleted_count deleted = 0 /\ db' = db)).
Proof.
  unfold delete_all. unfold_handler. split.
  - intros Hm. now rewrite Hm.
  - intros mgr Hm. rewrite Hm. unfold_handler.
    pose proof (delete_many_spec
                  (fun fb => Feedback.manager_employee_id fb =? manager_id)
                  (feedbacks db)) as Hspec.
    pose proof (delete_many_none
                  (fun fb => Feedback.manager_employee_id fb =? manager_id)
                  (feedbacks db)) as Hnone.
    destruct (Store.delete_many _ (feedbacks db)) as [rest deleted].
    destruct Hspec as (Hin & Hcount & Hlen).
    exists (DeleteResult.mk deleted), (with_feedbacks rest db).
    split; [reflexivity|]. simpl. split; [|split; [exact Hcount|]].
    + intros e. rewrite Hin, String.eqb_neq. tauto.
    + repeat (split; [first [exact Hlen | reflexivity]|]).
      intros Hno.
      assert (E : (rest, deleted) = (feedbacks db, 0)).
      { apply Hnone. intros e He. apply String.eqb_neq. now apply Hno. }
      injection E as -> ->. split; [reflexivity|]. now destruct db.
Qed.

(** C9. [update_notification_seen] raises 404 when the identifier is not
    stored; on a stored notification it sets [seen] to the boolean it is
    given, whichever it is, so a flag it has set can be set back by a second
    call with the opposite value.  [mark_feedback_request_seen] takes no
    boolean and always leaves [seen] true. *)
Theorem update_notification_seen_sets_the_given_value
    (notification_id : ObjectId) (seen : bool) (request_id : ObjectId)
    (db : DB) :
  (Store.get (notifications db) notification_id = None ->
   update_notification_seen notification_id seen db
     = (Raise (HTTPException 404 "Notification not found"), db))
  /\ (forall n,
        Store.get (notifications db) notification_id = Some n ->
        exists db1 db2,
          update_notification_seen notification_id seen db
            = (Ok "Notification updated", db1)
          /\ Store.get (notifications db1) notification_id
             = Some (Notification.set_seen seen n)
          /\ Notification.seen (Notification.set_seen seen n) = seen
          /\ update_notification_seen notification_id (negb seen) db1
             = (Ok "Notification updated", db2)
          /\ Store.get (notifications db2) notification_id
             = Some (Notification.set_seen (negb seen) n))
  /\ (forall r,
        Store.get (feedback_requests db) request_id = Some r ->
        exists db1,
          mark_feedback_request_seen request_id db
            = (Ok "Feedback request marked as seen", db1)
          /\ Store.get (feedback_requests db1) request_id
             = Some (FeedbackRequest.set_seen true r)
          /\ FeedbackRequest.seen (FeedbackRequest.set_seen true r) = true).
Proof.
  split; [|split].
  - intros Hget. unfold update_notification_seen. unfold_handler.
    now rewrite Hget.
  - intros n Hget. unfold update_notification_seen. unfold_handler.
    rewrite Hget. unfold_handler. do 2 eexists.
    split; [reflexivity|]. simpl.
    split; [apply get_save_same|]. split; [reflexivity|].
    rewrite get_save_same. split; [reflexivity|]. apply get_save_same.
  - intros r Hget. unfold mark_feedback_request_seen. unfold_handler.
    rewrite Hget. unfold_handler. eexists.
    split; [reflexivity|]. simpl. split; [apply get_save_same|reflexivity].
Qed.

(** ** Unique identifiers *)

Section Identifiers.
Context {D : Type}.
Implicit Types (c : collection D) (id next : ObjectId).

Lemma unique_ids_NoDup (ids : list ObjectId) :
  unique_ids ids = true <-> NoDup ids.
Proof.
  induction ids as [|i ids IH]; simpl.
  - split; [constructor | reflexivity].
  - rewrite andb_true_iff, negb_true_iff, IH. split.
    + intros [Hi Hn]. constructor; [|exact Hn].
      intros Hin. apply not_true_iff_false in Hi. apply Hi.
      apply existsb_exists. exists i. split; [exact Hin|apply Nat.eqb_refl].
    + intros Hn. inversion Hn as [|? ? Hi Hn']; subst. split; [|exact Hn'].
      apply not_true_iff_false. intros He.
      apply existsb_exists in He as (j & Hj & Hij).
      apply Nat.eqb_eq in Hij; subst j. contradiction.
Qed.

Lemma wf_collection_spec next c :
  wf_collection next c = true
  <-> NoDup (map fst c) /\ forall i, In i (map fst c) -> i < next.
Proof.
  unfold wf_collection.
  rewrite andb_true_iff, unique_ids_NoDup, forallb_forall.
  split; intros [Hn Hb]; (split; [exact Hn|]); intros i Hi.
  - apply Nat.ltb_lt. now apply Hb.
  - apply Nat.ltb_lt. now apply Hb.
Qed.

Lemma get_key c id d : Store.get c id = Some d -> In id (map fst c).
Proof.
  intros H. apply get_In in H.
  change id with (fst (id, d)). now apply in_map.
Qed.

Lemma get_none_key c id : Store.get c id = None -> ~ In id (map fst c).
Proof.
  unfold Store.get, Store.has_id.
  induction c as [|[i x] c IH]; simpl; [tauto|].
  destruct (Nat.eqb i id) eqn:Hi; simpl; [discriminate|].
  intros H [Heq | Hin]; [|now apply IH].
  apply Nat.eqb_neq in Hi. contradiction.
Qed.

(** Under unique identifiers a stored pair is what [get] returns. *)
Lemma In_get c id d :
  NoDup (map fst c) -> In (id, d) c -> Store.get c id = Some d.
Proof.
  unfold Store.get, Store.has_id.
  induction c as [|[i x] c IH]; simpl; [tauto|].
  intros Hn Hin. inversion Hn as [|? ? Hi Hn']; subst.
  destruct Hin as [[= -> ->] | Hin].
  - now rewrite Nat.eqb_refl.
  - destruct (Nat.eqb i id) eqn:E; [|now apply IH].
    apply Nat.eqb_eq in E; subst i. exfalso. apply Hi.
    change id with (fst (id, d)). now apply in_map.
Qed.

Lemma keys_filter (keep : ObjectId * D -> bool) c i :
  In i (map fst (filter keep c)) -> In i (map fst c).
Proof.
  rewrite !in_map_iff. intros (e & He & Hin).
  apply filter_In in Hin as [Hin _]. now exists e.
Qed.

Lemma NoDup_keys_filter (keep : ObjectId * D -> bool) c :
  NoDup (map fst c) -> NoDup (map fst (filter keep c)).
Proof.
  induction c as [|e c IH]; simpl; [trivial|].
  intros Hn. inversion Hn as [|? ? Hi Hn']; subst.
  destruct (keep e); simpl; [|now apply IH].
  constructor; [|now apply IH].
  intros Hin. apply Hi. now apply keys_filter in Hin.
Qed.

Lemma keys_save c id d :
  existsb (Store.has_id id) c = true ->
  map fst (Store.save c id d) = map fst c.
Proof.
  intros E. unfold Store.save. rewrite E. clear E.
  unfold Store.has_id.
  induction c as [|[i x] c IH]; simpl; [reflexivity|].
  rewrite IH. destruct (Nat.eqb i id) eqn:Hi; simpl; [|reflexivity].
  apply Nat.eqb_eq in Hi. now subst.
Qed.

Lemma keys_insert c id d :
  map fst (Store.insert c id d) = map fst c ++ [id].
Proof. unfold Store.insert. now rewrite map_app. Qed.

End Identifiers.

(** ** How the feedback collection evolves *)

Lemma feedbacks_step_wf next c next' c' :
  wf_collection next c = true ->
  feedbacks_step next c next' c' ->
  wf_collection next' c' = true.
Proof.
  rewrite !wf_collection_spec. intros [Hn Hb] Hstep.
  destruct Hstep as [next' Hle | next' fb Hlt | next' id fb fb' extra Hle Hg _
                    | next' keep Hle].
  - split; [exact Hn|]. intros i Hi. apply Hb in Hi. lia.
  - rewrite keys_insert. split.
    + apply NoDup_app; [exact Hn | repeat constructor; tauto |].
      intros i Hi [<- | []]. apply Hb in Hi. lia.
    + intros i Hi. apply in_app_iff in Hi as [Hi | [<- | []]]; [|lia].
      apply Hb in Hi. lia.
  - rewrite keys_save by (eapply get_some_exists; exact Hg).
    split; [exact Hn|]. intros i Hi. apply Hb in Hi. lia.
  - split; [now apply NoDup_keys_filter|].
    intros i Hi. apply keys_filter in Hi. apply Hb in Hi. lia.
Qed.

(** A stored feedback is deleted or keeps its comments, with others possibly
    added at the end; an identifier already handed out is not used again. *)
Lemma feedbacks_step_grow next c next' c' id :
  wf_collection next c = true ->
  feedbacks_step next c next' c' ->
  id < next ->
  match Store.get c id, Store.get c' id with
  | Some fb, Some fb' =>
      exists extra, Feedback.comments fb' = Feedback.comments fb ++ extra
  | None, Some _ => False
  | _, None => True
  end.
Proof.
  intros Hwf Hstep Hid.
  apply wf_collection_spec in Hwf as [Hn Hb].
  destruct Hstep as [next' Hle | next' fb Hlt | next' i fb0 fb0' extra Hle Hg Hc
                    | next' keep Hle].
  - destruct (Store.get c id); [|trivial]. exists []. now rewrite app_nil_r.
  - destruct (Store.get c id) as [fb0|] eqn:G.
    + rewrite (get_insert_some _ _ _ _ _ G). exists []. now rewrite app_nil_r.
    + destruct (Store.get (Store.insert c next fb) id) as [fb'|] eqn:G';
        [|trivial].
      apply get_key in G'. rewrite keys_insert in G'.
      apply in_app_iff in G' as [G' | [<- | []]]; [|lia].
      now apply get_none_key in G.
  - destruct (Nat.eq_dec id i) as [->|Hne].
    + rewrite Hg, get_save_same. now exists extra.
    + rewrite get_save_other by exact Hne.
      destruct (Store.get c id); [|trivial]. exists []. now rewrite app_nil_r.
  - destruct (Store.get (filter keep c) id) as [fb'|] eqn:G';
      [|now destruct (Store.get c id)].
    apply get_In, filter_In in G' as [G' _].
    rewrite (In_get _ _ _ Hn G'). exists []. now rewrite app_nil_r.
Qed.

Ltac solve_step :=
  simpl;
  first
    [ apply step_same; simpl; lia
    | apply step_insert; simpl; lia
    | eapply step_save with (extra := []);
      [ simpl; lia | eassumption | simpl; now rewrite app_nil_r ]
    | eapply step_save; [ simpl; lia | eassumption | reflexivity ]
    | apply step_delete; simpl; lia ].

Section Evolution.

Context {FeedbackOut : Type}.
Variable from_feedback :
  ObjectId -> Feedback.t -> string -> option (list Comment.t) -> FeedbackOut.
Variable markdown : string -> string.

(** Every request moves the feedback collection by one [feedbacks_step]. *)
Lemma run_feedbacks_step (now : datetime) (r : request) (db : DB) :
  feedbacks_step (next_id db) (feedbacks db)
    (next_id (run from_feedback markdown now r db))
    (feedbacks (run from_feedback markdown now r db)).
Proof.
  destruct r as [p | p | i | m | e | i | i upd | i | m | i c | m | i s | e].
  - simpl. unfold create_feedback. unfold_handler.
    destruct (lookup (is_manager _) db); unfold_handler; [|solve_step].
    destruct (lookup (is_employee _) db); unfold_handler; solve_step.
  - simpl. unfold request_feedback. unfold_handler.
    destruct (lookup (is_employee _) db); unfold_handler; [|solve_step].
    destruct (lookup (is_manager _) db); unfold_handler; solve_step.
  - simpl. unfold mark_feedback_request_seen. unfold_handler.
    destruct (Store.get (feedback_requests db) i); unfold_handler;
      solve_step.
  - rewrite run_read by reflexivity. solve_step.
  - rewrite run_read by reflexivity. solve_step.
  - simpl. unfold acknowledge. unfold_handler.
    destruct (Store.get (feedbacks db) i) as [fb|] eqn:G; unfold_handler;
      [|solve_step].
    destruct (lookup _ _); unfold_handler; solve_step.
  - simpl. unfold update_feedback. unfold_handler.
    destruct (Store.get (feedbacks db) i) as [fb|] eqn:G; unfold_handler;
      [|solve_step].
    destruct (lookup _ db) as [mgr|]; unfold_handler; [|solve_step].
    destruct (Feedback.manager_employee_id fb =? User.employee_id mgr);
      unfold_handler; solve_step.
  - simpl. unfold delete_feedback. unfold_handler.
    destruct (Store.get (feedbacks db) i) as [fb|] eqn:G; unfold_handler;
      [|solve_step].
    destruct (lookup _ db); unfold_handler; [|solve_step].
    unfold Store.delete. solve_step.
  - simpl. unfold delete_all. unfold_handler.
    destruct (lookup _ db); unfold_handler; [|solve_step].
    unfold Store.delete_many. solve_step.
  - simpl. unfold comment. unfold_handler.
    destruct (Store.get (feedbacks db) i) as [fb|] eqn:G; unfold_handler;
      [|solve_step].
    destruct (lookup _ db) as [emp|]; unfold_handler; [|solve_step].
    destruct (User.role emp =? "employee"); unfold_handler; [|solve_step].
    destruct (lookup _ _); unfold_handler; solve_step.
  - rewrite run_read by reflexivity. solve_step.
  - simpl. unfold update_notification_seen. unfold_handler.
    destruct (Store.get (notifications db) i); unfold_handler; solve_step.
  - simpl. unfold mark_all_seen. unfold_handler. solve_step.
Qed.

Lemma run_wf_feedbacks (now : datetime) (r : request) (db : DB) :
  wf_feedbacks db = true ->
  wf_feedbacks (run from_feedback markdown now r db) = true.
Proof.
  unfold wf_feedbacks. intros Hwf.
  eapply feedbacks_step_wf; [exact Hwf | apply run_feedbacks_step].
Qed.

Lemma run_next_id (now : datetime) (r : request) (db : DB) :
  next_id db <= next_id (run from_feedback markdown now r db).
Proof.
  destruct (run_feedbacks_step now r db); lia.
Qed.

(** Over any sequence of requests, a stored feedback is deleted or keeps
    its comments as a prefix of what it has afterwards; a deleted
    identifier does not come back. *)
Lemma run_all_comments_grow (rs : list (datetime * request)) :
  forall (db : DB) (id : ObjectId),
    wf_feedbacks db = true ->
    id < next_id db ->
    match Store.get (feedbacks db) id,
          Store.get
            (feedbacks (run_all from_feedback markdown rs db)) id with
    | Some fb, Some fb' =>
        exists extra, Feedback.comments fb' = Feedback.comments fb ++ extra
    | None, Some _ => False
    | _, None => True
    end.
Proof.
  induction rs as [|[now r] rs IH]; intros db id Hwf Hid; simpl.
  - destruct (Store.get (feedbacks db) id); [|trivial].
    exists []. now rewrite app_nil_r.
  - pose proof (feedbacks_step_grow _ _ _ _ id Hwf
                  (run_feedbacks_step now r db) Hid) as H1.
    pose proof (IH (run from_feedback markdown now r db) id
                  (run_wf_feedbacks now r db Hwf)
                  (Nat.lt_le_trans _ _ _ Hid (run_next_id now r db))) as H2.
    destruct (Store.get (feedbacks db) id) as [fb|];
      destruct (Store.get
                  (feedbacks (run from_feedback markdown now r db)) id)
        as [fb1|];
      destruct (Store.get
                  (feedbacks
                     (run_all from_feedback markdown rs
                        (run from_feedback markdown now r db))) id)
        as [fb2|];
      try tauto.
    destruct H1 as [x1 E1], H2 as [x2 E2].
    exists (x1 ++ x2). now rewrite E2, E1, app_assoc.
Qed.

End Evolution.

(** ** Commenting *)

(** One call of [comment] by somebody the Directory knows as an employee. *)
Lemma comment_found (now : datetime) (feedback_id : ObjectId)
    (c : CommentIn.t) (db : DB) (fb : Feedback.t) (emp : User.t) :
  Store.get (feedbacks db) feedback_id = Some fb ->
  lookup (has_employee_id (CommentIn.employee_id c)) db = Some emp ->
  User.role emp = "employee" ->
  exists db',
    comment now feedback_id c db = (Ok "Comment added", db')
    /\ users db' = users db
    /\ Store.get (feedbacks db') feedback_id
       = Some (Feedback.set_comments
                 (Feedback.comments fb
                    ++ [Comment.mk (CommentIn.employee_id c)
                                   (CommentIn.text c)])
                 fb).
Proof.
  intros Hget Hemp Hrole. unfold comment. unfold_handler.
  rewrite Hget. unfold_handler. rewrite Hemp. unfold_handler.
  rewrite Hrole, String.eqb_refl. unfold_handler.
  rewrite lookup_with_feedbacks.
  destruct (lookup (has_employee_id (Feedback.manager_employee_id _)) db);
    unfold_handler;
    (eexists; split; [reflexivity|]); simpl;
    (split; [reflexivity | apply get_save_same]).
Qed.

Section Comments.

Context {FeedbackOut : Type}.
Variable from_feedback :
  ObjectId -> Feedback.t -> string -> option (list Comment.t) -> FeedbackOut.
Variable markdown : string -> string.

(** X22. On a stored feedback, [comment] by an identifier whose first user
    in the Directory has role "employee" stores the feedback with the pair
    [{employee_id, text}] added at the end of its comments and nothing else
    changed.  A first comment followed by a second leaves the old comments
    followed by the first and then the second; the reads that follow find
    that document, and the employee's history renders those comments in
    that order.  Over any sequence of requests on a store with unique
    identifiers, while the feedback is stored its earlier comments remain a
    prefix of its comments. *)
Theorem comment_appends_in_order
    (now1 now2 : datetime) (feedback_id : ObjectId) (c1 c2 : CommentIn.t)
    (db : DB) (fb : Feedback.t) (emp1 emp2 : User.t) :
  Store.get (feedbacks db) feedback_id = Some fb ->
  lookup (has_employee_id (CommentIn.employee_id c1)) db = Some emp1 ->
  User.role emp1 = "employee" ->
  lookup (has_employee_id (CommentIn.employee_id c2)) db = Some emp2 ->
  User.role emp2 = "employee" ->
  let k1 := Comment.mk (CommentIn.employee_id c1) (CommentIn.text c1) in
  let k2 := Comment.mk (CommentIn.employee_id c2) (CommentIn.text c2) in
  exists db1 db2,
    comment now1 feedback_id c1 db = (Ok "Comment added", db1)
    /\ Store.get (feedbacks db1) feedback_id
       = Some (Feedback.set_comments (Feedback.comments fb ++ [k1]) fb)
    /\ option_map Feedback.comments (Store.get (feedbacks db1) feedback_id)
       = Some (Feedback.comments fb ++ [k1])
    /\ comment now2 feedback_id c2 db1 = (Ok "Comment added", db2)
    /\ Store.get (feedbacks db2) feedback_id
       = Some (Feedback.set_comments (Feedback.comments fb ++ [k1; k2]) fb)
    /\ option_map Feedback.comments (Store.get (feedbacks db2) feedback_id)
       = Some (Feedback.comments fb ++ [k1; k2])
    /\ (forall reads,
          forallb is_read (map snd reads) = true ->
          let db3 := run_all from_feedback markdown reads db2 in
          Store.get (feedbacks db3) feedback_id
            = Some (Feedback.set_comments
                      (Feedback.comments fb ++ [k1; k2]) fb)
          /\ exists outs,
              get_feedback_history from_feedback markdown
                (Feedback.employee_id fb) db3
                = (Ok outs, db3)
              /\ In (from_feedback feedback_id
                       (Feedback.set_comments
                          (Feedback.comments fb ++ [k1; k2]) fb)
                       (name_or_unknown
                          (lookup (has_employee_id
                                     (Feedback.manager_employee_id fb)) db))
                       (Some
                          (map (fun k =>
                                  Comment.mk (Comment.employee_id k)
                                    (markdown (Comment.text k)))
                               (Feedback.comments fb ++ [k1; k2]))))
                    outs)
    /\ (forall rs fb',
          wf_feedbacks db = true ->
          Store.get (feedbacks (run_all from_feedback markdown rs db))
                    feedback_id = Some fb' ->
          exists extra,
            Feedback.comments fb' = Feedback.comments fb ++ extra).
Proof.
  intros Hget He1 Hr1 He2 Hr2 k1 k2.
  destruct (comment_found now1 feedback_id c1 db fb emp1 Hget He1 Hr1)
    as (db1 & E1 & U1 & G1).
  assert (He2' : lookup (has_employee_id (CommentIn.employee_id c2)) db1
                 = Some emp2)
    by (unfold lookup; now rewrite U1).
  destruct (comment_found now2 feedback_id c2 db1 _ emp2 G1 He2' Hr2)
    as (db2 & E2 & U2 & G2).
  assert (G2' : Store.get (feedbacks db2) feedback_id
                = Some (Feedback.set_comments
                          (Feedback.comments fb ++ [k1; k2]) fb)).
  { rewrite G2. simpl Feedback.comments. rewrite <- app_assoc. reflexivity. }
  exists db1, db2.
  split; [exact E1|]. split; [exact G1|].
  split; [rewrite G1; reflexivity|]. split; [exact E2|].
  split; [exact G2'|]. split; [rewrite G2'; reflexivity|]. split.
  - intros reads Hreads. rewrite run_all_reads by exact Hreads. simpl.
    split; [exact G2'|].
    eexists. split; [apply get_feedback_history_eval|].
    apply in_map_iff.
    exists (feedback_id,
            Feedback.set_comments (Feedback.comments fb ++ [k1; k2]) fb).
    split.
    + simpl. unfold lookup. now rewrite U2, U1.
    + unfold Store.find_many. apply filter_In. split.
      * now apply get_In.
      * simpl. apply String.eqb_refl.
  - intros rs fb' Hwf Hfb'.
    assert (Hid : feedback_id < next_id db).
    { apply wf_collection_spec in Hwf as [_ Hb].
      apply Hb. eapply get_key. exact Hget. }
    pose proof (run_all_comments_grow from_feedback markdown rs db
                  feedback_id Hwf Hid) as H.
    rewrite Hget, Hfb' in H. exact H.
Qed.

End Comments.


(** * More facts *)

(** ** Sorting newest first *)

Section SortingFacts.
Context {D : Type}.
Variable created_at : D -> datetime.

Lemma insert_desc_perm (e : ObjectId * D) (l : collection D) :
  Permutation (insert_desc created_at e l) (e :: l).
Proof.
  induction l as [|x l IH]; simpl; [reflexivity|].
  destruct (created_at (snd e) <? created_at (snd x))%nat; [|reflexivity].
  rewrite IH. apply perm_swap.
Qed.

Lemma sort_desc_perm (l : collection D) :
  Permutation (sort_desc created_at l) l.
Proof.
  induction l as [|e l IH]; simpl; [reflexivity|].
  rewrite insert_desc_perm. now constructor.
Qed.

Lemma insert_desc_sorted (e : ObjectId * D) (l : collection D) :
  StronglySorted (newer_first created_at) l ->
  StronglySorted (newer_first created_at) (insert_desc created_at e l).
Proof.
  induction l as [|x l IH]; simpl; intros Hs.
  - constructor; constructor.
  - inversion Hs as [|? ? Hl Hx]; subst.
    destruct (created_at (snd e) <? created_at (snd x))%nat eqn:E.
    + apply Nat.ltb_lt in E. constructor; [now apply IH|].
      apply Forall_forall. intros y Hy.
      apply (Permutation_in _ (insert_desc_perm e l)) in Hy.
      destruct Hy as [<- | Hy].
      * unfold newer_first. lia.
      * rewrite Forall_forall in Hx. now apply Hx.
    + apply Nat.ltb_ge in E. constructor; [exact Hs|].
      constructor; [exact E|].
      rewrite Forall_forall in Hx |- *. intros y Hy.
      specialize (Hx y Hy). unfold newer_first in *. lia.
Qed.

Lemma sort_desc_sorted (l : collection D) :
  StronglySorted (newer_first created_at) (sort_desc created_at l).
Proof.
  induction l as [|e l IH]; simpl; [constructor|].
  now apply insert_desc_sorted.
Qed.

End SortingFacts.

Lemma StronglySorted_map {A B : Type} (R : A -> A -> Prop)
    (S : B -> B -> Prop) (f : A -> B) (l : list A) :
  (forall a b, R a b -> S (f a) (f b)) ->
  StronglySorted R l -> StronglySorted S (map f l).
Proof.
  intros H Hs. induction Hs as [|a l Hl IH Ha]; simpl; constructor.
  - exact IH.
  - rewrite Forall_forall in Ha |- *. intros y Hy.
    apply in_map_iff in Hy as (x & <- & Hx). apply H. now apply Ha.
Qed.

(** ** The listings *)

(** X16. [get_feedback_requests] raises 404 and leaves the store alone when
    [manager_id] resolves to no manager.  Otherwise it leaves the store alone
    and returns one entry per request addressed to that manager, each with the
    request's identifier, employee, message, flag and timestamp, ordered
    newest first. *)
Theorem get_feedback_requests_newest_first (manager_id : string) (db : DB) :
  (lookup (is_manager manager_id) db = None ->
   get_feedback_requests manager_id db
     = (Raise (HTTPException 404 "Manager not found"), db))
  /\ (forall mgr,
        lookup (is_manager manager_id) db = Some mgr ->
        exists outs,
          get_feedback_requests manager_id db = (Ok outs, db)
          /\ Permutation outs
               (map request_out
                  (filter (fun e : ObjectId * FeedbackRequest.t =>
                             FeedbackRequest.manager_employee_id (snd e)
                             =? manager_id)
                          (feedback_requests db)))
          /\ StronglySorted
               (fun a b => RequestOut.created_at b <= RequestOut.created_at a)
               outs).
Proof.
  unfold get_feedback_requests, FeedbackRequest_find_sort_desc.
  unfold_handler. split.
  - intros Hm. now rewrite Hm.
  - intros mgr Hm. rewrite Hm. eexists. split; [reflexivity|]. split.
    + apply Permutation_map. apply sort_desc_perm.
    + eapply StronglySorted_map; [|apply sort_desc_sorted].
      intros a b H. exact H.
Qed.

(** X17. [get_notifications] never raises and leaves the store alone,
    whoever is asked for: it returns one entry per notification addressed to
    [employee_id], ordered newest first, and the empty list when there is
    none. *)
Theorem get_notifications_newest_first (employee_id : string) (db : DB) :
  exists outs,
    get_notifications employee_id db = (Ok outs, db)
    /\ Permutation outs
         (map notification_out
            (filter (fun e : ObjectId * Notification.t =>
                       Notification.employee_id (snd e) =? employee_id)
                    (notifications db)))
    /\ StronglySorted
         (fun a b =>
            NotificationOut.created_at b <= NotificationOut.created_at a)
         outs
    /\ ((forall e,
           In e (notifications db) ->
           Notification.employee_id (snd e) <> employee_id) ->
        outs = []).
Proof.
  unfold get_notifications, Notification_find_sort_desc. unfold_handler.
  eexists. split; [reflexivity|]. split; [|split].
  - apply Permutation_map. apply sort_desc_perm.
  - eapply StronglySorted_map; [|apply sort_desc_sorted].
    intros a b H. exact H.
  - intros Hnone.
    replace (Store.find_many
               (fun n => Notification.employee_id n =? employee_id)
               (notifications db)) with (@nil (ObjectId * Notification.t));
      [reflexivity|].
    symmetry. unfold Store.find_many.
    induction (notifications db) as [|e l IH]; simpl; [reflexivity|].
    replace (Notification.employee_id (snd e) =? employee_id) with false.
    + apply IH. intros x Hx. apply Hnone. now right.
    + symmetry. apply String.eqb_neq. apply Hnone. now left.
Qed.

(** ** Counting and marking *)

Section CountFacts.
Context {D : Type}.
Implicit Types (c : collection D) (id : ObjectId) (d : D) (p : D -> bool).

Lemma count_insert p c id d :
  Store.count p (Store.insert c id d) = Store.count p c + one_if (p d).
Proof.
  unfold Store.count, Store.find_many, Store.insert.
  rewrite filter_app, length_app. simpl. now destruct (p d).
Qed.

Lemma replace_absent c id d :
  ~ In id (map fst c) ->
  map (fun e => if Store.has_id id e then (id, d) else e) c = c.
Proof.
  unfold Store.has_id.
  induction c as [|[i x] c IH]; simpl; [reflexivity|].
  intros H. destruct (Nat.eqb i id) eqn:E.
  - apply Nat.eqb_eq in E. tauto.
  - rewrite IH by tauto. reflexivity.
Qed.

(** Saving a stored document moves a count by that one document. *)
Lemma count_save p c id d d' :
  NoDup (map fst c) ->
  Store.get c id = Some d ->
  Store.count p (Store.save c id d') + one_if (p d)
  = Store.count p c + one_if (p d').
Proof.
  intros Hn Hg. unfold Store.save.
  rewrite (get_some_exists _ _ _ Hg).
  unfold Store.count, Store.find_many.
  revert Hn Hg. unfold Store.get, Store.has_id.
  induction c as [|[i x] c IH]; simpl; [discriminate|].
  intros Hn Hg. inversion Hn as [|? ? Hi Hn']; subst.
  destruct (Nat.eqb i id) eqn:E; simpl in *.
  - apply Nat.eqb_eq in E; subst i. injection Hg as ->.
    pose proof (replace_absent c id d' Hi) as R.
    unfold Store.has_id in R. rewrite R.
    destruct (p d), (p d'); simpl; lia.
  - specialize (IH Hn' Hg). destruct (p x); simpl; lia.
Qed.

Lemma save_save c id d :
  Store.save (Store.save c id d) id d = Store.save c id d.
Proof.
  assert (R : forall l : collection D,
            map (fun e => if Store.has_id id e then (id, d) else e)
                (map (fun e => if Store.has_id id e then (id, d) else e) l)
            = map (fun e => if Store.has_id id e then (id, d) else e) l).
  { intros l. rewrite map_map. apply map_ext. intros e.
    destruct (Store.has_id id e) eqn:E; [|now rewrite E].
    unfold Store.has_id. simpl. now rewrite Nat.eqb_refl. }
  assert (G : Store.get (Store.save c id d) id = Some d)
    by apply get_save_same.
  unfold Store.save at 1. rewrite (get_some_exists _ _ _ G).
  unfold Store.save. destruct (existsb (Store.has_id id) c) eqn:E.
  - apply R.
  - rewrite map_app. simpl. unfold Store.has_id at 2. simpl.
    rewrite Nat.eqb_refl. f_equal. apply replace_absent.
    intros Hin. apply in_map_iff in Hin as (e & He & Hin).
    apply not_true_iff_false in E. apply E. apply existsb_exists.
    exists e. split; [exact Hin|]. unfold Store.has_id.
    rewrite He. apply Nat.eqb_refl.
Qed.

Lemma get_update_many p (f : D -> D) c id :
  Store.get (Store.update_many p f c) id
  = option_map (fun d => if p d then f d else d) (Store.get c id).
Proof.
  unfold Store.get, Store.update_many, Store.has_id.
  induction c as [|[i x] c IH]; simpl; [reflexivity|].
  destruct (p x) eqn:P; simpl; destruct (Nat.eqb i id); simpl;
    rewrite ?P; first [reflexivity | exact IH].
Qed.

Lemma keys_update_many p (f : D -> D) c :
  map fst (Store.update_many p f c) = map fst c.
Proof.
  unfold Store.update_many. rewrite map_map. apply map_ext.
  intros e. now destruct (p (snd e)).
Qed.

Lemma update_many_twice p (f : D -> D) c :
  (forall d, p (f d) = p d) ->
  (forall d, f (f d) = f d) ->
  Store.update_many p f (Store.update_many p f c) = Store.update_many p f c.
Proof.
  intros Hp Hf. unfold Store.update_many. rewrite map_map.
  apply map_ext. intros e. destruct (p (snd e)) eqn:E; simpl.
  - now rewrite Hp, E, Hf.
  - now rewrite E.
Qed.

Lemma filter_length_perm (q : D -> bool) (l l' : list D) :
  Permutation l l' ->
  List.length (filter q l) = List.length (filter q l').
Proof.
  induction 1 as [|x l l' _ IH|x y l|l l' l'' _ IH1 _ IH2]; simpl.
  - reflexivity.
  - destruct (q x); simpl; now rewrite IH.
  - destruct (q x), (q y); reflexivity.
  - now rewrite IH1.
Qed.

End CountFacts.

(** The condition of [count_unseen_requests]. *)
Lemma unseen_for_true (manager_id : string) (r : FeedbackRequest.t) :
  (FeedbackRequest.manager_employee_id r =? manager_id)
  && Bool.eqb (FeedbackRequest.seen r) false
  = (FeedbackRequest.manager_employee_id r =? manager_id)
    && negb (FeedbackRequest.seen r).
Proof. now destruct (FeedbackRequest.seen r). Qed.

(** X1. On a store with unique request identifiers, marking a stored request
    seen lowers a manager's unseen count by one when the request was that
    manager's and was unseen, and leaves the count as it was otherwise. *)
Theorem mark_seen_lowers_unseen_count
    (request_id : ObjectId) (manager_id : string) (db : DB)
    (r : FeedbackRequest.t) (mgr : User.t) :
  wf_collection (next_id db) (feedback_requests db) = true ->
  Store.get (feedback_requests db) request_id = Some r ->
  lookup (is_manager manager_id) db = Some mgr ->
  exists db' before after,
    mark_feedback_request_seen request_id db
      = (Ok "Feedback request marked as seen", db')
    /\ count_unseen_requests manager_id db = (Ok before, db)
    /\ count_unseen_requests manager_id db' = (Ok after, db')
    /\ before
       = after
         + (if (FeedbackRequest.manager_employee_id r =? manager_id)
               && negb (FeedbackRequest.seen r)
            then 1 else 0).
Proof.
  intros Hwf Hget Hm.
  apply wf_collection_spec in Hwf as [Hn _].
  unfold mark_feedback_request_seen, count_unseen_requests.
  unfold_handler. rewrite Hget, Hm. unfold_handler.
  do 3 eexists. split; [reflexivity|].
  unfold lookup in *. simpl. rewrite Hm. unfold_handler.
  split; [reflexivity|]. split; [reflexivity|].
  pose proof (count_save
                (fun r0 =>
                   (FeedbackRequest.manager_employee_id r0 =? manager_id)
                   && Bool.eqb (FeedbackRequest.seen r0) false)
                _ _ _ (FeedbackRequest.set_seen true r) Hn Hget) as H.
  simpl in H. rewrite andb_false_r in H. simpl in H.
  rewrite unseen_for_true in H. unfold one_if in H.
  cbn [feedback_requests with_feedback_requests]. lia.
Qed.

(** X2. A request that [request_feedback] accepts raises the unseen count of
    the manager it is addressed to by one and leaves the unseen count of
    every other manager as it was. *)
Theorem request_feedback_raises_unseen_count
    (now : datetime) (payload : FeedbackRequestIn.t) (manager_id : string)
    (db : DB) (emp mgr m : User.t) :
  lookup (is_employee (FeedbackRequestIn.employee_id payload)) db = Some emp ->
  lookup (is_manager (FeedbackRequestIn.manager_employee_id payload)) db
    = Some mgr ->
  lookup (is_manager manager_id) db = Some m ->
  exists db' before after,
    request_feedback now payload db
      = (Ok "Feedback request submitted successfully", db')
    /\ count_unseen_requests manager_id db = (Ok before, db)
    /\ count_unseen_requests manager_id db' = (Ok after, db')
    /\ after
       = before
         + (if FeedbackRequestIn.manager_employee_id payload =? manager_id
            then 1 else 0).
Proof.
  intros He Hmgr Hm.
  unfold request_feedback, count_unseen_requests. unfold_handler.
  rewrite He. unfold_handler. rewrite Hmgr, Hm. unfold_handler.
  do 3 eexists. split; [reflexivity|].
  unfold lookup in *.
  cbn [users feedback_requests bump_id with_feedback_requests
       with_notifications].
  rewrite Hm. unfold_handler.
  split; [reflexivity|]. split; [reflexivity|].
  cbn [users feedback_requests bump_id with_feedback_requests
       with_notifications].
  rewrite count_insert. unfold one_if.
  cbn [FeedbackRequest.manager_employee_id FeedbackRequest.seen Bool.eqb].
  now rewrite andb_true_r.
Qed.

(** X3. [mark_feedback_request_seen] raises 404 and writes nothing for an
    identifier that is not stored.  On a stored request it touches nothing
    but that request, and a second call leaves the store exactly as the first
    left it. *)
Theorem mark_seen_again_changes_nothing (request_id : ObjectId) (db : DB) :
  (Store.get (feedback_requests db) request_id = None ->
   mark_feedback_request_seen request_id db
     = (Raise (HTTPException 404 "Feedback request not found"), db))
  /\ (forall r,
        Store.get (feedback_requests db) request_id = Some r ->
        exists db1,
          mark_feedback_request_seen request_id db
            = (Ok "Feedback request marked as seen", db1)
          /\ mark_feedback_request_seen request_id db1
             = (Ok "Feedback request marked as seen", db1)
          /\ users db1 = users db
          /\ feedbacks db1 = feedbacks db
          /\ notifications db1 = notifications db
          /\ next_id db1 = next_id db
          /\ map fst (feedback_requests db1) = map fst (feedback_requests db)
          /\ forall other,
              other <> request_id ->
              Store.get (feedback_requests db1) other
              = Store.get (feedback_requests db) other).
Proof.
  unfold mark_feedback_request_seen. unfold_handler. split.
  - intros Hget. now rewrite Hget.
  - intros r Hget. rewrite Hget. unfold_handler.
    eexists. split; [reflexivity|]. simpl. rewrite get_save_same.
    unfold_handler. split.
    + unfold with_feedback_requests. simpl.
      change (FeedbackRequest.set_seen true (FeedbackRequest.set_seen true r))
        with (FeedbackRequest.set_seen true r).
      now rewrite save_save.
    + repeat (split; [reflexivity|]). split.
      * apply keys_save. eapply get_some_exists. exact Hget.
      * intros other Hne. now apply get_save_other.
Qed.

(** X4. [mark_all_seen] never raises.  It sets [seen] on every notification
    addressed to [employee_id] and leaves every other notification, the order
    of the collection and the rest of the store as they were; a second call
    changes nothing more, and the employee's listing then shows every entry
    as seen. *)
Theorem mark_all_seen_marks_the_employees_feed
    (employee_id : string) (db : DB) :
  exists db',
    mark_all_seen employee_id db = (Ok "All notifications marked as seen", db')
    /\ (forall id,
          Store.get (notifications db') id
          = option_map
              (fun n => if Notification.employee_id n =? employee_id
                        then Notification.set_seen true n else n)
              (Store.get (notifications db) id))
    /\ map fst (notifications db') = map fst (notifications db)
    /\ users db' = users db
    /\ feedbacks db' = feedbacks db
    /\ feedback_requests db' = feedback_requests db
    /\ next_id db' = next_id db
    /\ mark_all_seen employee_id db'
       = (Ok "All notifications marked as seen", db')
    /\ exists outs,
        get_notifications employee_id db' = (Ok outs, db')
        /\ forall o, In o outs -> NotificationOut.seen o = true.
Proof.
  unfold mark_all_seen, get_notifications, Notification_find_sort_desc.
  unfold_handler. eexists. split; [reflexivity|].
  cbn [users feedbacks feedback_requests notifications next_id
       with_notifications].
  split; [intros id; apply get_update_many|].
  split; [apply keys_update_many|].
  repeat (split; [reflexivity|]). split.
  - unfold with_notifications.
    cbn [users feedbacks feedback_requests notifications next_id].
    rewrite update_many_twice; [reflexivity| |]; intros n; reflexivity.
  - eexists. split; [reflexivity|].
    intros o Ho. apply in_map_iff in Ho as (e & <- & He).
    apply (Permutation_in _ (sort_desc_perm _ _)) in He.
    unfold Store.find_many in He. apply filter_In in He as [He Hp].
    unfold Store.update_many in He.
    apply in_map_iff in He as ([i n] & <- & _).
    cbn [snd] in *.
    destruct (Notification.employee_id n =? employee_id) eqn:E.
    + reflexivity.
    + cbn [snd] in Hp. congruence.
Qed.

(** X18. For a manager, the number [count_unseen_requests] returns is the
    number of entries of [get_feedback_requests] that are not seen. *)
Theorem count_unseen_matches_the_listing
    (manager_id : string) (db : DB) (mgr : User.t) :
  lookup (is_manager manager_id) db = Some mgr ->
  exists n outs,
    count_unseen_requests manager_id db = (Ok n, db)
    /\ get_feedback_requests manager_id db = (Ok outs, db)
    /\ n = List.length (filter (fun o => negb (RequestOut.seen o)) outs).
Proof.
  intros Hm.
  unfold count_unseen_requests, get_feedback_requests,
    FeedbackRequest_find_sort_desc.
  unfold_handler. rewrite Hm. unfold_handler.
  do 2 eexists. split; [reflexivity|]. split; [reflexivity|].
  unfold Store.count, Store.find_many.
  rewrite <- (filter_length_perm
                (fun o => negb (RequestOut.seen o))
                _ _
                (Permutation_map request_out
                   (Permutation_sym (sort_desc_perm _ _)))).
  induction (feedback_requests db) as [|[i r] l IH]; simpl; [reflexivity|].
  destruct (FeedbackRequest.manager_employee_id r =? manager_id); simpl.
  - destruct (FeedbackRequest.seen r); simpl; now rewrite IH.
  - exact IH.
Qed.

(** ** Histories after writes *)

Lemma lookup_by_id_of_manager (id : string) (db : DB) (mgr : User.t) :
  lookup (is_manager id) db = Some mgr ->
  exists u,
    lookup (has_employee_id id) db = Some u /\ User.employee_id u = id.
Proof.
  intros Hm. unfold lookup in *.
  destruct (find (has_employee_id id) (users db)) as [u|] eqn:F.
  - exists u. split; [reflexivity|].
    apply find_some in F as [_ F]. now apply String.eqb_eq.
  - apply find_some in Hm as [Hin Hp].
    apply (find_none _ _ F) in Hin.
    apply is_manager_true in Hp as [Hid _].
    unfold has_employee_id in Hin. rewrite Hid, String.eqb_refl in Hin.
    discriminate.
Qed.

Lemma find_many_none {D : Type} (p : D -> bool) (c : collection D) :
  (forall e, In e c -> p (snd e) = false) -> Store.find_many p c = [].
Proof.
  unfold Store.find_many. induction c as [|e c IH]; simpl; [reflexivity|].
  intros H. rewrite (H e (or_introl eq_refl)).
  apply IH. intros x Hx. apply H. now right.
Qed.

Section HistoryFacts.

Context {FeedbackOut : Type}.
Variable from_feedback :
  ObjectId -> Feedback.t -> string -> option (list Comment.t) -> FeedbackOut.
Variable markdown : string -> string.

(** X5. After [create_feedback] returns, the employee's history and the
    manager's history are what they were followed by one entry for the new
    feedback, under the identifier of the response and with no comments.  The
    response is built from the document in memory, whose [created_at] is the
    clock reading; the histories are built from the stored document, whose
    [created_at] is that reading cut to the millisecond and whose other
    fields are those of the response.  The manager's history names the
    manager found by role, the employee's history the first user of that
    identifier.  The history of any other employee is what it was. *)
Theorem create_feedback_then_histories
    (now : datetime) (payload : FeedbackCreate.t) (db : DB)
    (mgr emp : User.t) :
  lookup (is_manager (FeedbackCreate.manager_employee_id payload)) db
    = Some mgr ->
  lookup (is_employee (FeedbackCreate.employee_id payload)) db = Some emp ->
  exists db' fb stored u mine theirs,
    create_feedback from_feedback now payload db
      = (Ok (from_feedback (next_id db) fb (User.name mgr) None), db')
    /\ Feedback.created_at fb = now
    /\ Feedback.created_at stored = to_milliseconds now
    /\ Feedback.employee_id stored = Feedback.employee_id fb
    /\ Feedback.manager_employee_id stored = Feedback.manager_employee_id fb
    /\ Feedback.strengths stored = Feedback.strengths fb
    /\ Feedback.improvement stored = Feedback.improvement fb
    /\ Feedback.sentiment stored = Feedback.sentiment fb
    /\ Feedback.anonymous stored = Feedback.anonymous fb
    /\ Feedback.tags stored = Feedback.tags fb
    /\ Feedback.acknowledged stored = Feedback.acknowledged fb
    /\ Feedback.comments stored = Feedback.comments fb
    /\ lookup (has_employee_id (FeedbackCreate.manager_employee_id payload)) db
       = Some u
    /\ get_feedback_history from_feedback markdown
         (FeedbackCreate.employee_id payload) db
       = (Ok mine, db)
    /\ get_feedback_history from_feedback markdown
         (FeedbackCreate.employee_id payload) db'
       = (Ok (mine
                ++ [from_feedback (next_id db) stored (User.name u) (Some [])]),
          db')
    /\ get_manager_feedback_history from_feedback markdown
         (FeedbackCreate.manager_employee_id payload) db
       = (Ok theirs, db)
    /\ get_manager_feedback_history from_feedback markdown
         (FeedbackCreate.manager_employee_id payload) db'
       = (Ok (theirs
                ++ [from_feedback (next_id db) stored (User.name mgr)
                      (Some [])]),
          db')
    /\ forall other,
        other <> FeedbackCreate.employee_id payload ->
        fst (get_feedback_history from_feedback markdown other db')
        = fst (get_feedback_history from_feedback markdown other db).
Proof.
  intros Hm He.
  destruct (lookup_by_id_of_manager _ _ _ Hm) as (u & Hu & _).
  unfold create_feedback. unfold_handler. rewrite Hm. unfold_handler.
  rewrite He. unfold_handler.
  set (fb := Feedback.mk
               (FeedbackCreate.employee_id payload)
               (FeedbackCreate.manager_employee_id payload)
               (FeedbackCreate.strengths payload)
               (FeedbackCreate.improvement payload)
               (FeedbackCreate.sentiment payload)
               (FeedbackCreate.anonymous payload)
               (or_empty (FeedbackCreate.tags payload))
               false [] now).
  eexists. exists fb, (Feedback.as_stored fb), u. do 2 eexists.
  split; [reflexivity|].
  do 11 (split; [reflexivity|]).
  split; [exact Hu|].
  split; [apply get_feedback_history_eval|].
  split; [|split; [apply (get_manager_feedback_history_eval _ _ _ _ _ Hm)|split]].
  - rewrite get_feedback_history_eval. f_equal.
    cbn [feedbacks bump_id with_feedbacks with_notifications].
    unfold Store.find_many, Store.insert. rewrite filter_app, map_app.
    cbn [filter snd Feedback.employee_id Feedback.as_stored].
    rewrite String.eqb_refl.
    cbn [map fst snd Feedback.manager_employee_id].
    unfold lookup at 2.
    cbn [users bump_id with_feedbacks with_notifications].
    change (find (has_employee_id
                    (Feedback.manager_employee_id (Feedback.as_stored fb)))
                 (users db))
      with (lookup (has_employee_id
                      (FeedbackCreate.manager_employee_id payload)) db).
    rewrite Hu. reflexivity.
  - match goal with
    | |- get_manager_feedback_history _ _ _ ?d = _ =>
        assert (Hm' : lookup (is_manager
                                (FeedbackCreate.manager_employee_id payload)) d
                      = Some mgr) by exact Hm;
        rewrite (get_manager_feedback_history_eval _ _ _ _ _ Hm')
    end.
    f_equal.
    cbn [feedbacks bump_id with_feedbacks with_notifications].
    unfold Store.find_many, Store.insert. rewrite filter_app, map_app.
    cbn [filter snd Feedback.manager_employee_id Feedback.as_stored].
    rewrite String.eqb_refl.
    reflexivity.
  - intros other Hne. rewrite !get_feedback_history_eval. subst fb.
    cbn [fst feedbacks bump_id with_feedbacks with_notifications].
    unfold Store.find_many, Store.insert. rewrite filter_app.
    cbn [filter snd Feedback.employee_id Feedback.as_stored].
    replace (FeedbackCreate.employee_id payload =? other) with false
      by (symmetry; apply String.eqb_neq; congruence).
    now rewrite app_nil_r.
Qed.

(** X6. [get_feedback_history] checks nobody: for an identifier no stored
    feedback is addressed to, registered or not, it returns the empty list.
    [get_manager_feedback_history] raises 404 for an identifier that resolves
    to no manager, whatever feedback is stored under it. *)
Theorem histories_of_an_unknown_identifier (id : string) (db : DB) :
  ((forall e, In e (feedbacks db) -> Feedback.employee_id (snd e) <> id) ->
   get_feedback_history from_feedback markdown id db = (Ok [], db))
  /\ (lookup (is_manager id) db = None ->
      get_manager_feedback_history from_feedback markdown id db
        = (Raise (HTTPException 404 "Manager not found"), db)).
Proof.
  split.
  - intros Hnone. rewrite get_feedback_history_eval.
    rewrite find_many_none; [reflexivity|].
    intros e He. apply String.eqb_neq. now apply Hnone.
  - intros Hm. unfold get_manager_feedback_history. unfold_handler.
    now rewrite Hm.
Qed.

(** X9. After [delete_all] for a manager, a second [delete_all] for that
    manager removes nothing: the object it formats into its message has
    [deleted_count] 0 and the store is as the first call left it; the
    manager's history is empty. *)
Theorem delete_all_again_removes_nothing
    (manager_id : string) (db : DB) (mgr : User.t) :
  lookup (is_manager manager_id) db = Some mgr ->
  exists deleted db1,
    delete_all manager_id db
      = (Ok [Text "Deleted "; Formatted deleted; Text " items"], db1)
    /\ delete_all manager_id db1
       = (Ok [Text "Deleted "; Formatted (DeleteResult.mk 0); Text " items"],
          db1)
    /\ get_manager_feedback_history from_feedback markdown manager_id db1
       = (Ok [], db1).
Proof.
  intros Hm. unfold delete_all. unfold_handler. rewrite Hm. unfold_handler.
  unfold Store.delete_many at 1. do 2 eexists. split; [reflexivity|].
  assert (Hm' : lookup (is_manager manager_id)
                  (with_feedbacks
                     (filter
                        (fun e : ObjectId * Feedback.t =>
                           negb (Feedback.manager_employee_id (snd e)
                                 =? manager_id))
                        (feedbacks db)) db)
                = Some mgr) by exact Hm.
  assert (Hgone : forall e,
             In e (filter
                     (fun e : ObjectId * Feedback.t =>
                        negb (Feedback.manager_employee_id (snd e)
                              =? manager_id))
                     (feedbacks db)) ->
             (Feedback.manager_employee_id (snd e) =? manager_id) = false).
  { intros e He. apply filter_In in He as [_ He].
    now apply negb_true_iff in He. }
  split.
  - rewrite Hm'. unfold_handler.
    cbn [feedbacks with_feedbacks].
    rewrite (delete_many_none _ _ Hgone). unfold with_feedbacks.
    reflexivity.
  - rewrite (get_manager_feedback_history_eval _ _ _ _ _ Hm').
    cbn [feedbacks with_feedbacks].
    now rewrite (find_many_none _ _ Hgone).
Qed.

(** X19. After [delete_feedback] has deleted a feedback, [delete_feedback],
    [acknowledge], [update_feedback] and [comment] all raise 404 for its
    identifier and write nothing; the other feedbacks are as they were. *)
Theorem deleted_feedback_is_gone
    (now : datetime) (feedback_id : ObjectId) (upd : FeedbackCreate.t)
    (c : CommentIn.t) (db : DB) (fb : Feedback.t) (mgr : User.t) :
  Store.get (feedbacks db) feedback_id = Some fb ->
  lookup (is_manager (Feedback.manager_employee_id fb)) db = Some mgr ->
  exists db1,
    delete_feedback feedback_id db = (Ok "Deleted", db1)
    /\ delete_feedback feedback_id db1
       = (Raise (HTTPException 404 "Feedback not found"), db1)
    /\ acknowledge now feedback_id db1
       = (Raise (HTTPException 404 "Feedback not found"), db1)
    /\ update_feedback from_feedback feedback_id upd db1
       = (Raise (HTTPException 404 "Feedback not found"), db1)
    /\ comment now feedback_id c db1
       = (Raise (HTTPException 404 "Feedback not found"), db1)
    /\ forall other,
        other <> feedback_id ->
        Store.get (feedbacks db1) other = Store.get (feedbacks db) other.
Proof.
  intros Hget Hm.
  unfold delete_feedback, acknowledge, update_feedback, comment.
  unfold_handler. rewrite Hget. unfold_handler. rewrite Hm. unfold_handler.
  eexists. split; [reflexivity|].
  cbn [feedbacks with_feedbacks]. rewrite get_delete_same.
  repeat (split; [reflexivity|]).
  intros other Hne. now apply get_delete_other.
Qed.

End HistoryFacts.

(** ** Commenting: who may, and who is told *)

(** X7. [comment] raises 404 for a feedback that is not stored, before it
    looks at the commenter.  For a stored feedback it raises 403 when the
    commenter's identifier resolves to nobody and when the first user of that
    identifier has another role than "employee".  In all three cases nothing
    is written. *)
Theorem comment_refusals
    (now : datetime) (feedback_id : ObjectId) (c : CommentIn.t) (db : DB) :
  (Store.get (feedbacks db) feedback_id = None ->
   comment now feedback_id c db
     = (Raise (HTTPException 404 "Feedback not found"), db))
  /\ (forall fb,
        Store.get (feedbacks db) feedback_id = Some fb ->
        (lookup (has_employee_id (CommentIn.employee_id c)) db = None ->
         comment now feedback_id c db
           = (Raise (HTTPException 403 "Not authorized"), db))
        /\ (forall u,
              lookup (has_employee_id (CommentIn.employee_id c)) db = Some u ->
              User.role u <> "employee" ->
              comment now feedback_id c db
                = (Raise (HTTPException 403 "Not authorized"), db))).
Proof.
  unfold comment. unfold_handler. split.
  - intros Hget. now rewrite Hget.
  - intros fb Hget. rewrite Hget. unfold_handler. split.
    + intros Hu. now rewrite Hu.
    + intros u Hu Hrole. rewrite Hu.
      apply String.eqb_neq in Hrole. now rewrite Hrole.
Qed.

(** X8. A comment that is accepted, whoever the feedback is about, is stored:
    the feedback then has the comment [{employee_id, text}] after the comments
    it had, and its other fields as they were.  It adds one unseen
    notification when the stored [manager_employee_id] resolves to a user: it
    is addressed to that identifier, carries that user's name, the message
    "Employee {commenter} commented on your feedback." and the clock reading
    cut to the millisecond.  When the identifier resolves to nobody the
    comment is stored all the same and nobody is told.  Users and requests
    stay as they were. *)
Theorem comment_tells_the_manager
    (now : datetime) (feedback_id : ObjectId) (c : CommentIn.t) (db : DB)
    (fb : Feedback.t) (emp : User.t) :
  Store.get (feedbacks db) feedback_id = Some fb ->
  lookup (has_employee_id (CommentIn.employee_id c)) db = Some emp ->
  User.role emp = "employee" ->
  exists db' fb',
    comment now feedback_id c db = (Ok "Comment added", db')
    /\ users db' = users db
    /\ feedback_requests db' = feedback_requests db
    /\ Store.get (feedbacks db') feedback_id = Some fb'
    /\ Feedback.comments fb'
       = Feedback.comments fb
           ++ [Comment.mk (CommentIn.employee_id c) (CommentIn.text c)]
    /\ Feedback.employee_id fb' = Feedback.employee_id fb
    /\ Feedback.manager_employee_id fb' = Feedback.manager_employee_id fb
    /\ Feedback.strengths fb' = Feedback.strengths fb
    /\ Feedback.improvement fb' = Feedback.improvement fb
    /\ Feedback.sentiment fb' = Feedback.sentiment fb
    /\ Feedback.anonymous fb' = Feedback.anonymous fb
    /\ Feedback.tags fb' = Feedback.tags fb
    /\ Feedback.acknowledged fb' = Feedback.acknowledged fb
    /\ Feedback.created_at fb' = Feedback.created_at fb
    /\ (forall mgr,
          lookup (has_employee_id (Feedback.manager_employee_id fb)) db
            = Some mgr ->
          notifications db'
          = notifications db
              ++ [(next_id db,
                   Notification.mk
                     (Feedback.manager_employee_id fb)
                     (Feedback.manager_employee_id fb)
                     (User.name mgr)
                     (String.append "Employee "
                        (String.append (CommentIn.employee_id c)
                                       " commented on your feedback."))
                     false
                     (to_milliseconds now))])
    /\ (lookup (has_employee_id (Feedback.manager_employee_id fb)) db = None ->
        notifications db' = notifications db).
Proof.
  intros Hget Hemp Hrole. unfold comment. unfold_handler.
  rewrite Hget. unfold_handler. rewrite Hemp. unfold_handler.
  rewrite Hrole, String.eqb_refl. unfold_handler.
  rewrite lookup_with_feedbacks.
  cbn [Feedback.manager_employee_id Feedback.set_comments].
  destruct (lookup (has_employee_id (Feedback.manager_employee_id fb)) db)
    as [mgr|] eqn:Hm; unfold_handler;
    (do 2 eexists; split; [reflexivity|]);
    cbn [users feedbacks feedback_requests notifications next_id bump_id
         with_feedbacks with_notifications];
    (split; [reflexivity|]); (split; [reflexivity|]);
    (split; [apply get_save_same|]);
    do 10 (split; [reflexivity|]); split;
    first [discriminate | reflexivity | idtac].
  intros mgr' [= <-]. reflexivity.
Qed.

(** ** What no request changes *)

Section EvolveFacts.
Context {D : Type}.
Variable kept : D -> D -> Prop.
Hypothesis kept_refl : forall d, kept d d.

(** Where nothing is deleted, a stored document stays stored. *)
Lemma evolves_stays next c next' c' id d :
  evolves kept false next c next' c' ->
  Store.get c id = Some d ->
  exists d', Store.get c' id = Some d' /\ kept d d'.
Proof.
  intros Hstep Hget.
  destruct Hstep as [next' Hle | next' i d0 Hge Hlt | next' i d0 d0' Hle Hg Hk
                    | next' p f Hle Hk | next' keep Hdel Hle].
  - now exists d.
  - exists d. split; [now apply get_insert_some | apply kept_refl].
  - destruct (Nat.eq_dec id i) as [->|Hne].
    + exists d0'. split; [apply get_save_same|]. congruence.
    + exists d. split; [now rewrite get_save_other | apply kept_refl].
  - rewrite get_update_many, Hget. simpl.
    eexists. split; [reflexivity|]. destruct (p d); [apply Hk | apply kept_refl].
  - discriminate.
Qed.

(** Where documents may be deleted, a stored document is deleted or kept, and
    an identifier handed out earlier is not given to another document. *)
Lemma evolves_fate deletes next c next' c' id :
  wf_collection next c = true ->
  evolves kept deletes next c next' c' ->
  id < next ->
  match Store.get c id, Store.get c' id with
  | Some d, Some d' => kept d d'
  | None, Some _ => False
  | _, None => True
  end.
Proof.
  intros Hwf Hstep Hid.
  apply wf_collection_spec in Hwf as [Hn Hb].
  destruct Hstep as [next' Hle | next' i d0 Hge Hlt | next' i d0 d0' Hle Hg Hk
                    | next' p f Hle Hk | next' keep Hdel Hle].
  - destruct (Store.get c id); [apply kept_refl | trivial].
  - destruct (Store.get c id) as [d|] eqn:G.
    + rewrite (get_insert_some _ _ _ _ _ G). apply kept_refl.
    + destruct (Store.get (Store.insert c i d0) id) as [d'|] eqn:G';
        [|trivial].
      apply get_key in G'. rewrite keys_insert in G'.
      apply in_app_iff in G' as [G' | [<- | []]]; [|lia].
      now apply get_none_key in G.
  - destruct (Nat.eq_dec id i) as [->|Hne].
    + now rewrite Hg, get_save_same.
    + rewrite get_save_other by exact Hne.
      destruct (Store.get c id); [apply kept_refl | trivial].
  - rewrite get_update_many.
    destruct (Store.get c id) as [d|]; simpl; [|trivial].
    destruct (p d); [apply Hk | apply kept_refl].
  - destruct (Store.get (filter keep c) id) as [d'|] eqn:G';
      [|now destruct (Store.get c id)].
    apply get_In, filter_In in G' as [G' _].
    rewrite (In_get _ _ _ Hn G'). apply kept_refl.
Qed.

End EvolveFacts.

Lemma feedback_kept_refl (fb : Feedback.t) : feedback_kept fb fb.
Proof. unfold feedback_kept. tauto. Qed.

Lemma feedback_kept_trans (a b c : Feedback.t) :
  feedback_kept a b -> feedback_kept b c -> feedback_kept a c.
Proof.
  unfold feedback_kept. intros (A1 & A2 & A3 & A4) (B1 & B2 & B3 & B4).
  repeat split; try congruence. auto.
Qed.

Lemma request_kept_refl (r : FeedbackRequest.t) : request_kept r r.
Proof. unfold request_kept. tauto. Qed.

Lemma request_kept_trans (a b c : FeedbackRequest.t) :
  request_kept a b -> request_kept b c -> request_kept a c.
Proof.
  unfold request_kept.
  intros (A1 & A2 & A3 & A4 & A5) (B1 & B2 & B3 & B4 & B5).
  repeat split; try congruence. auto.
Qed.

Lemma notification_kept_refl (n : Notification.t) : notification_kept n n.
Proof. unfold notification_kept. tauto. Qed.

Lemma notification_kept_trans (a b c : Notification.t) :
  notification_kept a b -> notification_kept b c -> notification_kept a c.
Proof.
  unfold notification_kept.
  intros (A1 & A2 & A3 & A4 & A5) (B1 & B2 & B3 & B4 & B5).
  repeat split; congruence.
Qed.

Ltac solve_kept :=
  unfold feedback_kept, request_kept, notification_kept;
  cbn; repeat split; auto.

Ltac solve_evolves :=
  cbn [fst snd users feedbacks feedback_requests notifications next_id
       bump_id with_feedbacks with_feedback_requests with_notifications];
  first
    [ apply evolves_same; lia
    | apply evolves_insert; lia
    | eapply evolves_save; [ lia | eassumption | solve_kept ]
    | apply evolves_update; [ lia | intros; solve_kept ]
    | apply evolves_delete; [ reflexivity | lia ] ].

Ltac solve_effect :=
  split; [reflexivity|]; split; [solve_evolves|];
  split; solve_evolves.

Section Effects.

Context {FeedbackOut : Type}.
Variable from_feedback :
  ObjectId -> Feedback.t -> string -> option (list Comment.t) -> FeedbackOut.
Variable markdown : string -> string.

(** What one request does to the store. *)
Lemma run_effect (now : datetime) (r : request) (db : DB) :
  let db' := run from_feedback markdown now r db in
  users db' = users db
  /\ evolves feedback_kept true
       (next_id db) (feedbacks db) (next_id db') (feedbacks db')
  /\ evolves request_kept false
       (next_id db) (feedback_requests db)
       (next_id db') (feedback_requests db')
  /\ evolves notification_kept false
       (next_id db) (notifications db) (next_id db') (notifications db').
Proof.
  destruct r as [p | p | i | m | e | i | i upd | i | m | i c | m | i s | e];
    cbv zeta.
  - simpl run. unfold create_feedback. unfold_handler.
    destruct (lookup (is_manager _) db); unfold_handler; [|solve_effect].
    destruct (lookup (is_employee _) db); unfold_handler; solve_effect.
  - simpl run. unfold request_feedback. unfold_handler.
    destruct (lookup (is_employee _) db); unfold_handler; [|solve_effect].
    destruct (lookup (is_manager _) db); unfold_handler; solve_effect.
  - simpl run. unfold mark_feedback_request_seen. unfold_handler.
    destruct (Store.get (feedback_requests db) i) eqn:G; unfold_handler;
      solve_effect.
  - rewrite run_read by reflexivity. solve_effect.
  - rewrite run_read by reflexivity. solve_effect.
  - simpl run. unfold acknowledge. unfold_handler.
    destruct (Store.get (feedbacks db) i) as [fb|] eqn:G; unfold_handler;
      [|solve_effect].
    rewrite lookup_with_feedbacks.
    destruct (lookup _ db); unfold_handler; solve_effect.
  - simpl run. unfold update_feedback. unfold_handler.
    destruct (Store.get (feedbacks db) i) as [fb|] eqn:G; unfold_handler;
      [|solve_effect].
    destruct (lookup _ db) as [mgr|]; unfold_handler; [|solve_effect].
    destruct (Feedback.manager_employee_id fb =? User.employee_id mgr);
      unfold_handler; solve_effect.
  - simpl run. unfold delete_feedback. unfold_handler.
    destruct (Store.get (feedbacks db) i) as [fb|] eqn:G; unfold_handler;
      [|solve_effect].
    destruct (lookup _ db); unfold_handler; [|solve_effect].
    unfold Store.delete. solve_effect.
  - simpl run. unfold delete_all. unfold_handler.
    destruct (lookup _ db); unfold_handler; [|solve_effect].
    unfold Store.delete_many. solve_effect.
  - simpl run. unfold comment. unfold_handler.
    destruct (Store.get (feedbacks db) i) as [fb|] eqn:G; unfold_handler;
      [|solve_effect].
    destruct (lookup _ db) as [emp|]; unfold_handler; [|solve_effect].
    destruct (User.role emp =? "employee"); unfold_handler; [|solve_effect].
    rewrite lookup_with_feedbacks.
    destruct (lookup _ db); unfold_handler; solve_effect.
  - rewrite run_read by reflexivity. solve_effect.
  - simpl run. unfold update_notification_seen. unfold_handler.
    destruct (Store.get (notifications db) i) eqn:G; unfold_handler;
      solve_effect.
  - simpl run. unfold mark_all_seen. unfold_handler. solve_effect.
Qed.

(** X10. No request changes the users: after any sequence of requests the
    Directory answers every lookup as before. *)
Theorem requests_leave_the_directory_alone
    (rs : list (datetime * request)) (db : DB) :
  users (run_all from_feedback markdown rs db) = users db
  /\ forall p,
      lookup p (run_all from_feedback markdown rs db) = lookup p db.
Proof.
  assert (H : users (run_all from_feedback markdown rs db) = users db).
  { revert db. induction rs as [|[now r] rs IH]; intros db; simpl.
    - reflexivity.
    - rewrite IH. now destruct (run_effect now r db) as (U & _). }
  split; [exact H|]. intros p. unfold lookup. now rewrite H.
Qed.

(** X11. On a store with unique feedback identifiers, whatever requests
    follow, a feedback that is still stored has the employee, the manager and the
    creation time it had, and is acknowledged if it was: no request moves a
    feedback to another employee or manager, and none takes an
    acknowledgement back. *)
Theorem feedback_identity_is_kept
    (rs : list (datetime * request)) (db : DB) (id : ObjectId)
    (fb fb' : Feedback.t) :
  wf_feedbacks db = true ->
  Store.get (feedbacks db) id = Some fb ->
  Store.get (feedbacks (run_all from_feedback markdown rs db)) id = Some fb' ->
  Feedback.employee_id fb' = Feedback.employee_id fb
  /\ Feedback.manager_employee_id fb' = Feedback.manager_employee_id fb
  /\ Feedback.created_at fb' = Feedback.created_at fb
  /\ (Feedback.acknowledged fb = true -> Feedback.acknowledged fb' = true).
Proof.
  intros Hwf Hget Hget'.
  assert (Hid : id < next_id db).
  { apply wf_collection_spec in Hwf as [_ Hb].
    apply Hb. eapply get_key. exact Hget. }
  enough (G : forall rs db,
             wf_feedbacks db = true -> id < next_id db ->
             match Store.get (feedbacks db) id,
                   Store.get
                     (feedbacks (run_all from_feedback markdown rs db)) id with
             | Some a, Some b => feedback_kept a b
             | None, Some _ => False
             | _, None => True
             end).
  { specialize (G rs db Hwf Hid). rewrite Hget, Hget' in G. exact G. }
  clear. induction rs as [|[now r] rs IH]; intros db Hwf Hid; simpl.
  - destruct (Store.get (feedbacks db) id);
      [apply feedback_kept_refl | trivial].
  - destruct (run_effect now r db) as (_ & E1 & _).
    pose proof (evolves_fate _ feedback_kept_refl _ _ _ _ _ id Hwf E1 Hid)
      as H1.
    assert (Hle : next_id db <= next_id (run from_feedback markdown now r db))
      by (destruct E1; lia).
    pose proof (IH (run from_feedback markdown now r db)
                  (run_wf_feedbacks from_feedback markdown now r db Hwf)
                  (Nat.lt_le_trans _ _ _ Hid Hle))
      as H2.
    destruct (Store.get (feedbacks db) id) as [a|];
      destruct (Store.get
                  (feedbacks (run from_feedback markdown now r db)) id)
        as [b|];
      destruct (Store.get
                  (feedbacks
                     (run_all from_feedback markdown rs
                        (run from_feedback markdown now r db))) id)
        as [c|];
      try tauto.
    eapply feedback_kept_trans; eassumption.
Qed.

(** X12. No request deletes a feedback request or rewrites it: whatever
    requests follow, a stored request is still stored under its identifier,
    with its employee, manager, message and creation time, and seen if it
    was. *)
Theorem requests_are_never_deleted
    (rs : list (datetime * request)) (db : DB) (id : ObjectId)
    (r : FeedbackRequest.t) :
  Store.get (feedback_requests db) id = Some r ->
  exists r',
    Store.get (feedback_requests (run_all from_feedback markdown rs db)) id
      = Some r'
    /\ FeedbackRequest.employee_id r' = FeedbackRequest.employee_id r
    /\ FeedbackRequest.manager_employee_id r'
       = FeedbackRequest.manager_employee_id r
    /\ FeedbackRequest.message r' = FeedbackRequest.message r
    /\ FeedbackRequest.created_at r' = FeedbackRequest.created_at r
    /\ (FeedbackRequest.seen r = true -> FeedbackRequest.seen r' = true).
Proof.
  revert db r. induction rs as [|[now q] rs IH]; intros db r Hget; simpl.
  - exists r. split; [exact Hget|]. apply request_kept_refl.
  - destruct (run_effect now q db) as (_ & _ & E2 & _).
    destruct (evolves_stays _ request_kept_refl _ _ _ _ _ _ E2 Hget)
      as (r1 & G1 & K1).
    destruct (IH _ _ G1) as (r2 & G2 & K2).
    exists r2. split; [exact G2|].
    exact (request_kept_trans _ _ _ K1 K2).
Qed.

(** X13. No request deletes a notification or rewrites what it says:
    whatever requests follow, a stored notification is still stored under its
    identifier with its recipient, manager identifier, manager name, message
    and creation time; only [seen] may differ. *)
Theorem notifications_are_never_deleted
    (rs : list (datetime * request)) (db : DB) (id : ObjectId)
    (n : Notification.t) :
  Store.get (notifications db) id = Some n ->
  exists n',
    Store.get (notifications (run_all from_feedback markdown rs db)) id
      = Some n'
    /\ Notification.employee_id n' = Notification.employee_id n
    /\ Notification.manager_employee_id n'
       = Notification.manager_employee_id n
    /\ Notification.manager_name n' = Notification.manager_name n
    /\ Notification.message n' = Notification.message n
    /\ Notification.created_at n' = Notification.created_at n.
Proof.
  revert db n. induction rs as [|[now q] rs IH]; intros db n Hget; simpl.
  - exists n. split; [exact Hget|]. apply notification_kept_refl.
  - destruct (run_effect now q db) as (_ & _ & _ & E3).
    destruct (evolves_stays _ notification_kept_refl _ _ _ _ _ _ E3 Hget)
      as (n1 & G1 & K1).
    destruct (IH _ _ G1) as (n2 & G2 & K2).
    exists n2. split; [exact G2|].
    exact (notification_kept_trans _ _ _ K1 K2).
Qed.

End Effects.

(** ** The export *)

Section ExportFacts.

Variable upper : string -> string.

Lemma export_loop_on_page (fbs : list Feedback.t) :
  forall (y : Z) (p : list canvas_op),
    (60 <= y <= 800)%Z ->
    (exists k, y = 20 * k)%Z ->
    Forall on_page p ->
    Forall on_page (export_loop upper fbs y p).
Proof.
  induction fbs as [|fb fbs IH]; intros y p Hy [k Hk] Hp; simpl; [exact Hp|].
  assert (Hp' : Forall on_page (p ++ [DrawString 100 y (export_line upper fb)])).
  { apply Forall_app. split; [exact Hp|]. repeat constructor; lia. }
  destruct (y - 20 <? 50)%Z eqn:E.
  - apply IH; [lia | exists 40%Z; lia |].
    apply Forall_app. split; [exact Hp'|]. repeat constructor.
  - apply Z.ltb_ge in E. apply IH; [lia | exists (k - 1)%Z; lia | exact Hp'].
Qed.

(** X14. [export_pdf] never raises and leaves the store alone.  Every line it
    draws, the title included, is at x = 100 and at a height between 60 and
    800: no line is drawn below the bottom margin, however many feedbacks
    there are. *)
Theorem export_pdf_draws_on_the_page (employee_id : string) (db : DB) :
  exists ops,
    export_pdf upper employee_id db = (Ok ops, db)
    /\ Forall on_page ops.
Proof.
  unfold export_pdf. unfold_handler. eexists. split; [reflexivity|].
  apply Forall_app. split; [|repeat constructor].
  apply export_loop_on_page; [lia | exists 39%Z; lia |].
  repeat constructor; lia.
Qed.

Lemma export_loop_pages (fbs : list Feedback.t) :
  forall (y : Z) (p : list canvas_op) (pre : list (list string))
         (page : list string),
    (forall q, pages_of (p ++ q) [] = pre ++ pages_of q page) ->
    (y = 800 - 20 * Z.of_nat (List.length page))%Z ->
    List.length page < 38 ->
    exists full last,
      (forall q,
          pages_of (export_loop upper fbs y p ++ q) []
          = (pre ++ full) ++ pages_of q last)
      /\ Forall (fun pg => List.length pg = 38) full
      /\ List.length last < 38
      /\ List.concat full ++ last = page ++ map (export_line upper) fbs.
Proof.
  induction fbs as [|fb fbs IH]; intros y p pre page Hp Hy Hlen; simpl.
  - exists [], page. rewrite !app_nil_r. repeat split; [exact Hp | constructor | exact Hlen].
  - set (line := export_line upper fb).
    assert (Hp' : forall q,
               pages_of ((p ++ [DrawString 100 y line]) ++ q) []
               = pre ++ pages_of q (page ++ [line])).
    { intros q. rewrite <- app_assoc. simpl. now rewrite Hp. }
    destruct (y - 20 <? 50)%Z eqn:E.
    + apply Z.ltb_lt in E.
      assert (Hfull : List.length (page ++ [line]) = 38)
        by (rewrite length_app; simpl; lia).
      destruct (IH 800%Z ((p ++ [DrawString 100 y line]) ++ [ShowPage])
                  (pre ++ [page ++ [line]]) [])
        as (full & last & Hq & Hf & Hl & Hc).
      * intros q. rewrite <- app_assoc. simpl. rewrite Hp'. simpl.
        now rewrite <- app_assoc.
      * reflexivity.
      * simpl. lia.
      * exists ((page ++ [line]) :: full), last. repeat split.
        -- intros q. rewrite Hq. now rewrite <- !app_assoc.
        -- now constructor.
        -- exact Hl.
        -- simpl. rewrite <- !app_assoc. simpl. f_equal. simpl in Hc.
           now rewrite Hc.
    + apply Z.ltb_ge in E.
      destruct (IH (y - 20)%Z (p ++ [DrawString 100 y line]) pre
                  (page ++ [line]))
        as (full & last & Hq & Hf & Hl & Hc).
      * exact Hp'.
      * rewrite length_app. cbn [Datatypes.length]. lia.
      * rewrite length_app. cbn [Datatypes.length]. lia.
      * exists full, last. repeat split; try assumption.
        rewrite Hc. now rewrite <- app_assoc.
Qed.

Lemma length_concat_full {A : Type} (n : nat) (l : list (list A)) :
  Forall (fun x => List.length x = n) l ->
  List.length (List.concat l) = n * List.length l.
Proof.
  induction 1 as [|x l Hx _ IH]; simpl; [lia|].
  rewrite length_app, IH, Hx. lia.
Qed.

(** X15. The lines [export_pdf] draws are the title followed by one line per
    feedback of the employee, in store order.  [ShowPage] cuts them into
    pages of exactly 38 lines, the title counting as the first line of the
    first page, followed by a last page of fewer than 38 lines, which is
    empty when the lines fill the pages before it; with n feedbacks there are
    (n + 1) / 38 full pages. *)
Theorem export_pdf_pages (employee_id : string) (db : DB) :
  exists ops full last,
    export_pdf upper employee_id db = (Ok ops, db)
    /\ pages_of ops [] = full ++ [last]
    /\ Forall (fun pg => List.length pg = 38) full
    /\ List.length last < 38
    /\ List.concat (full ++ [last])
       = String.append "Feedback Report for Employee ID: " employee_id
         :: map (export_line upper)
              (map snd
                 (Store.find_many
                    (fun fb => Feedback.employee_id fb =? employee_id)
                    (feedbacks db)))
    /\ List.length full
       = S (List.length
              (Store.find_many
                 (fun fb => Feedback.employee_id fb =? employee_id)
                 (feedbacks db)))
         / 38.
Proof.
  unfold export_pdf. unfold_handler.
  set (fbs := Store.find_many _ (feedbacks db)).
  set (title := String.append "Feedback Report for Employee ID: " employee_id).
  destruct (export_loop_pages (map snd fbs) 780%Z [DrawString 100 800 title]
              [] [title])
    as (full & last & Hq & Hf & Hl & Hc).
  - intros q. reflexivity.
  - reflexivity.
  - simpl. lia.
  - exists (export_loop upper (map snd fbs) 780 [DrawString 100 800 title]
            ++ [Save]), full, last.
    split; [reflexivity|]. split; [apply Hq|].
    split; [exact Hf|]. split; [exact Hl|].
    assert (Hcat : List.concat (full ++ [last])
                   = title :: map (export_line upper) (map snd fbs)).
    { rewrite concat_app. simpl. rewrite app_nil_r. exact Hc. }
    split; [exact Hcat|].
    apply (f_equal (@List.length string)) in Hcat.
    rewrite concat_app, length_app, (length_concat_full 38 _ Hf) in Hcat.
    simpl in Hcat. rewrite app_nil_r, !length_map in Hcat.
    apply (Nat.div_unique _ 38 _ (List.length last)); [exact Hl | lia].
Qed.

End ExportFacts.

(** ** A feedback whose manager is gone *)

Section Orphans.

Context {FeedbackOut : Type}.
Variable from_feedback :
  ObjectId -> Feedback.t -> string -> option (list Comment.t) -> FeedbackOut.

(** X20. A stored feedback whose [manager_employee_id] resolves to no manager
    can be neither updated nor deleted: [update_feedback] raises 403 for
    every body, [delete_feedback] raises 403, and so does [delete_all] for
    that identifier; none of them writes. *)
Theorem orphan_feedback_is_frozen
    (feedback_id : ObjectId) (upd : FeedbackCreate.t) (db : DB)
    (fb : Feedback.t) :
  Store.get (feedbacks db) feedback_id = Some fb ->
  lookup (is_manager (Feedback.manager_employee_id fb)) db = None ->
  update_feedback from_feedback feedback_id upd db
    = (Raise (HTTPException 403 "Not authorized"), db)
  /\ delete_feedback feedback_id db
     = (Raise (HTTPException 403 "Not authorized"), db)
  /\ delete_all (Feedback.manager_employee_id fb) db
     = (Raise (HTTPException 403 "Not authorized"), db).
Proof.
  intros Hget Hm.
  unfold update_feedback, delete_feedback, delete_all. unfold_handler.
  rewrite Hget. unfold_handler. rewrite Hm. unfold_handler.
  split; [|split; reflexivity].
  destruct (lookup (is_manager (FeedbackCreate.manager_employee_id upd)) db)
    as [mgr|] eqn:Hu; [|reflexivity].
  destruct (Feedback.manager_employee_id fb =? User.employee_id mgr) eqn:E;
    [|reflexivity].
  apply String.eqb_eq in E.
  pose proof (is_manager_true _ _ (lookup_some _ _ _ Hu)) as [Hid _].
  rewrite E, Hid in Hm. congruence.
Qed.

End Orphans.
(** * Examples *)

(** Alice's feedback to Eve is stored under identifier 0 and announced to Eve
    under identifier 1; with nobody registered, [create_feedback] raises 404
    and writes nothing. *)
Lemma create_feedback_example :
  (exists fb n out,
      create_feedback Sample.View 10 Sample.praise Sample.db0
      = (Ok out, mkDB Sample.directory [(0, fb)] [] [(1, n)] 2)
      /\ Feedback.employee_id fb = "E1"
      /\ Feedback.manager_employee_id fb = "M1"
      /\ Feedback.acknowledged fb = false
      /\ Feedback.comments fb = []
      /\ Notification.employee_id n = "E1"
      /\ Notification.message n
         = "You have received new feedback from manager Alice")
  /\ (exists r,
        create_feedback Sample.View 10 Sample.praise Sample.db_nobody
        = (r, Sample.db_nobody)
        /\ NotFound r).
Proof.
  split.
  - exact (proj1 (create_feedback_one_feedback_one_notification
                    Sample.View 10 Sample.praise Sample.db0)
                 Sample.alice Sample.eve eq_refl eq_refl).
  - exact (proj2 (create_feedback_one_feedback_one_notification
                    Sample.View 10 Sample.praise Sample.db_nobody)
                 (or_introl eq_refl)).
Defined.

(** Bob is a manager, but the feedback is Alice's. *)
Lemma update_feedback_by_bob_example :
  update_feedback Sample.View 0 Sample.rewrite_by_bob Sample.db1
  = (Raise (HTTPException 403 "Not authorized"), Sample.db1)
  /\ Forbidden
       (fst (update_feedback Sample.View 0 Sample.rewrite_by_bob Sample.db1))
  /\ Store.get
       (feedbacks
          (snd (update_feedback Sample.View 0 Sample.rewrite_by_bob
                  Sample.db1)))
       0
     = Some Sample.praise_feedback.
Proof.
  apply (update_feedback_other_manager_forbidden
           Sample.View 0 Sample.rewrite_by_bob Sample.db1
           Sample.praise_feedback).
  - reflexivity.
  - discriminate.
Defined.

(** Against C3 as stated: the manager "M9" of this feedback is in no
    directory, and acknowledging it succeeds without any notification. *)
Lemma acknowledge_orphan_sends_nothing :
  Store.get (feedbacks Sample.db_orphan) 0 = Some Sample.orphan
  /\ fst (acknowledge 11 0 Sample.db_orphan) = Ok "Feedback acknowledged"
  /\ option_map Feedback.acknowledged
       (Store.get (feedbacks (snd (acknowledge 11 0 Sample.db_orphan))) 0)
     = Some true
  /\ notifications (snd (acknowledge 11 0 Sample.db_orphan)) = [].
Proof. repeat split. Qed.

(** Eve acknowledges Alice's feedback twice: Alice gets two notifications, on
    top of the one Eve got. *)
Lemma acknowledge_twice_example :
  exists dbA dbB,
    acknowledge 11 0 Sample.db1 = (Ok "Feedback acknowledged", dbA)
    /\ acknowledge 12 0 dbA = (Ok "Feedback acknowledged", dbB)
    /\ option_map Feedback.acknowledged (Store.get (feedbacks dbB) 0)
       = Some true
    /\ exists n1 n2,
        notifications dbB = notifications Sample.db1 ++ [(2, n1); (3, n2)]
        /\ Notification.employee_id n1 = "M1"
        /\ Notification.employee_id n2 = "M1"
        /\ Notification.message n1 = "Employee E1 acknowledged your feedback."
        /\ Notification.message n2 = "Employee E1 acknowledged your feedback.".
Proof.
  destruct (proj2 (acknowledge_twice 11 12 0 Sample.db1)
                  Sample.praise_feedback eq_refl)
    as (dbA & dbB & E1 & E2 & _ & A2 & N & _).
  exists dbA, dbB. split; [exact E1|]. split; [exact E2|].
  split; [exact A2|].
  destruct (N Sample.alice eq_refl) as (n1 & n2 & H1 & H2 & R1 & R2 & M1 & M2).
  exists n1, n2. split.
  - rewrite H2, H1, <- app_assoc. simpl.
    replace (next_id dbA) with 3; [reflexivity|].
    injection E1 as <-. reflexivity.
  - split; [exact R1|]. split; [exact R2|]. split; [exact M1|].
    rewrite M2. exact M1.
Defined.

(** Against C4 as stated: with nobody registered the two handlers name
    different entities. *)
Lemma request_feedback_names_the_employee_first :
  fst (request_feedback 10 Sample.ask Sample.db_nobody)
  = Raise (HTTPException 404 "Employee not found")
  /\ fst (create_feedback Sample.View 10 Sample.praise Sample.db_nobody)
     = Raise (HTTPException 404 "Manager not found")
  /\ FeedbackCreate.employee_id Sample.praise
     = FeedbackRequestIn.employee_id Sample.ask
  /\ FeedbackCreate.manager_employee_id Sample.praise
     = FeedbackRequestIn.manager_employee_id Sample.ask
  /\ "Employee not found" <> "Manager not found".
Proof. repeat split. discriminate. Qed.

(** Eve asks Alice for feedback. *)
Lemma request_feedback_example :
  (exists fr n,
      request_feedback 10 Sample.ask Sample.db0
      = (Ok "Feedback request submitted successfully",
         mkDB Sample.directory [] [(0, fr)] [(1, n)] 2)
      /\ FeedbackRequest.employee_id fr = "E1"
      /\ FeedbackRequest.manager_employee_id fr = "M1"
      /\ FeedbackRequest.seen fr = false
      /\ Notification.employee_id n = "M1"
      /\ Notification.manager_employee_id n = "M1")
  /\ (NotFound (fst (request_feedback 10 Sample.ask Sample.db_nobody))
      <-> NotFound
            (fst (create_feedback Sample.View 10 Sample.praise
                    Sample.db_nobody))).
Proof.
  split.
  - destruct (request_feedback_validation_and_effect
                Sample.View 10 Sample.ask Sample.praise Sample.db0
                eq_refl eq_refl) as (_ & _ & _ & _ & H).
    exact (H Sample.eve Sample.alice eq_refl eq_refl).
  - exact (proj1 (request_feedback_validation_and_effect
                    Sample.View 10 Sample.ask Sample.praise Sample.db_nobody
                    eq_refl eq_refl)).
Defined.

(** Alice rewrites her feedback after Eve acknowledged it and commented,
    once without tags and once with two. *)
Lemma update_feedback_by_alice_example :
  (exists fb' db',
      update_feedback Sample.View 0 Sample.rewrite_by_alice Sample.db2
      = (Ok (Sample.View 0 fb' "Alice" None), db')
      /\ Feedback.strengths fb' = "steady"
      /\ Feedback.improvement fb' = "reviews"
      /\ Feedback.sentiment fb' = "neutral"
      /\ Feedback.tags fb' = []
      /\ Feedback.anonymous fb' = true
      /\ Feedback.acknowledged fb' = true
      /\ Feedback.comments fb' = [Comment.mk "E1" "thanks"]
      /\ exists outs,
          get_feedback_history Sample.View Sample.html "E1" db'
          = (Ok outs, db')
          /\ In (Sample.View 0 fb' "Alice"
                   (Some [Comment.mk "E1" "<p>thanks</p>"]))
                outs)
  /\ (exists fb' db',
        update_feedback Sample.View 0 Shift.retag_by_alice Sample.db2
        = (Ok (Sample.View 0 fb' "Alice" None), db')
        /\ Feedback.tags fb' = ["urgent"; "q3"]
        /\ option_map Feedback.tags (Store.get (feedbacks db') 0)
           = Some ["urgent"; "q3"]
        /\ Feedback.acknowledged fb' = true
        /\ Feedback.comments fb' = [Comment.mk "E1" "thanks"]).
Proof.
  split.
  - destruct (update_feedback_replaces_fields
                Sample.View Sample.html 0 Sample.rewrite_by_alice Sample.db2
                Sample.read_feedback Sample.alice eq_refl eq_refl eq_refl)
      as (fb' & db' & E & S1 & S2 & S3 & S4 & S5 & S6 & S7 & _ & _ & _ & R).
    exists fb', db'. repeat (split; [assumption|]).
    exact (proj2 (R [] eq_refl)).
  - destruct (update_feedback_replaces_fields
                Sample.View Sample.html 0 Shift.retag_by_alice Sample.db2
                Sample.read_feedback Sample.alice eq_refl eq_refl eq_refl)
      as (fb' & db' & E & _ & _ & _ & S4 & _ & S6 & S7 & _ & _ & _ & R).
    exists fb', db'. split; [exact E|]. split; [exact S4|].
    split; [|split; [exact S6 | exact S7]].
    pose proof (proj1 (R [] eq_refl)) as G. simpl in G.
    rewrite G. simpl. now rewrite S4.
Defined.

(** Deleting Alice's feedback needs no caller; the orphan cannot be deleted;
    identifier 7 is not stored. *)
Lemma delete_feedback_example :
  (delete_feedback 0 Sample.db1
   = (Ok "Deleted",
      mkDB Sample.directory [] [] (notifications Sample.db1) 2)
   /\ Store.get (feedbacks (snd (delete_feedback 0 Sample.db1))) 0 = None)
  /\ delete_feedback 0 Sample.db_orphan
     = (Raise (HTTPException 403 "Not authorized"), Sample.db_orphan)
  /\ delete_feedback 7 Sample.db1
     = (Raise (HTTPException 404 "Feedback not found"), Sample.db1).
Proof.
  split; [|split].
  - destruct (proj1 (proj2 (delete_feedback_authorization 0 Sample.db1))
                    Sample.praise_feedback eq_refl) as (_ & _ & H).
    exact (H Sample.alice eq_refl).
  - destruct (proj1 (proj2 (delete_feedback_authorization 0 Sample.db_orphan))
                    Sample.orphan eq_refl) as (_ & H & _).
    exact (H eq_refl).
  - exact (proj1 (delete_feedback_authorization 7 Sample.db1) eq_refl).
Defined.

(** Alice has one feedback, Bob has none, Eve is no manager. *)
Lemma delete_all_example :
  (exists deleted db',
      delete_all "M1" Sample.db2
        = (Ok [Text "Deleted "; Formatted deleted; Text " items"], db')
      /\ DeleteResult.deleted_count deleted = 1
      /\ List.length (feedbacks Sample.db2) = List.length (feedbacks db') + 1)
  /\ (exists deleted db',
        delete_all "M2" Sample.db2
          = (Ok [Text "Deleted "; Formatted deleted; Text " items"], db')
        /\ DeleteResult.deleted_count deleted = 0 /\ db' = Sample.db2)
  /\ delete_all "E1" Sample.db2
     = (Raise (HTTPException 403 "Not authorized"), Sample.db2).
Proof.
  split; [|split].
  - destruct (proj2 (delete_all_removes_the_managers_feedback "M1" Sample.db2)
                    Sample.alice eq_refl)
      as (deleted & db' & E & _ & C & L & _).
    exists deleted, db'. split; [exact E|].
    assert (D : DeleteResult.deleted_count deleted = 1) by exact C.
    split; [exact D|]. rewrite <- D. exact L.
  - destruct (proj2 (delete_all_removes_the_managers_feedback "M2" Sample.db2)
                    Sample.bob eq_refl)
      as (deleted & db' & E & _ & _ & _ & _ & _ & _ & _ & Z).
    exists deleted, db'. split; [exact E|].
    apply Z. intros e [<- | []]. discriminate.
  - exact (proj1 (delete_all_removes_the_managers_feedback "E1" Sample.db2)
                 eq_refl).
Defined.

(** Eve comments twice on Alice's feedback. *)
Lemma comment_twice_example :
  exists dbA dbB,
    comment 12 0 Sample.first_comment Sample.db1 = (Ok "Comment added", dbA)
    /\ comment 13 0 Sample.second_comment dbA = (Ok "Comment added", dbB)
    /\ option_map Feedback.comments (Store.get (feedbacks dbB) 0)
       = Some [Comment.mk "E1" "thanks"; Comment.mk "E1" "will do"]
    /\ (exists outs,
          get_feedback_history Sample.View Sample.html "E1" dbB
          = (Ok outs, dbB)
          /\ In (Sample.View 0
                   (Feedback.set_comments
                      [Comment.mk "E1" "thanks"; Comment.mk "E1" "will do"]
                      Sample.praise_feedback)
                   "Alice"
                   (Some [Comment.mk "E1" "<p>thanks</p>";
                          Comment.mk "E1" "<p>will do</p>"]))
                outs)
    /\ (forall rs fb',
          Store.get
            (feedbacks (run_all Sample.View Sample.html rs Sample.db1)) 0
          = Some fb' ->
          exists extra, Feedback.comments fb' = [] ++ extra).
Proof.
  destruct (comment_appends_in_order
              Sample.View Sample.html 12 13 0
              Sample.first_comment Sample.second_comment Sample.db1
              Sample.praise_feedback Sample.eve Sample.eve
              eq_refl eq_refl eq_refl eq_refl eq_refl)
    as (dbA & dbB & E1 & _ & _ & E2 & _ & P & R & W).
  exists dbA, dbB. split; [exact E1|]. split; [exact E2|].
  split; [exact P|]. split.
  - exact (proj2 (R [] eq_refl)).
  - intros rs fb' H. exact (W rs fb' eq_refl H).
Defined.

(** C7, where the code departs from it: Alice's one feedback is removed, and
    what [delete_all] returns is the message with the result object of the
    bulk delete interpolated, not the number 1. *)
Lemma delete_all_formats_the_result_object :
  delete_all "M1" Sample.db2
  = (Ok [Text "Deleted "; Formatted (DeleteResult.mk 1); Text " items"],
     mkDB Sample.directory [] [] (notifications Sample.db2)
          (next_id Sample.db2)).
Proof. reflexivity. Qed.

(** C8, where the code departs from it: "X1" resolves by role to the employee
    Xena, whom [request_feedback] accepts under that identifier, and the
    feedback is stored; yet her comment is refused, because [comment] takes
    the first user of the identifier, the manager Mara. *)
Lemma comment_refuses_an_employee_behind_a_manager :
  lookup (is_employee "X1") Shift.db_shared = Some Shift.xena
  /\ Store.get (feedbacks Shift.db_shared) 0 = Some Shift.praise_for_xena
  /\ fst (request_feedback (milliseconds 20)
            (FeedbackRequestIn.mk "X1" "M1" "please review") Shift.db_shared)
     = Ok "Feedback request submitted successfully"
  /\ comment (milliseconds 12) 0 (CommentIn.mk "X1" "thanks") Shift.db_shared
     = (Raise (HTTPException 403 "Not authorized"), Shift.db_shared).
Proof. repeat split. Qed.

(** Eve's notification is marked seen and then unmarked; a request can only
    be marked. *)
Lemma update_notification_seen_example :
  (exists dbA dbB,
      update_notification_seen 1 true Sample.db1
      = (Ok "Notification updated", dbA)
      /\ option_map Notification.seen (Store.get (notifications dbA) 1)
         = Some true
      /\ update_notification_seen 1 false dbA
         = (Ok "Notification updated", dbB)
      /\ option_map Notification.seen (Store.get (notifications dbB) 1)
         = Some false)
  /\ update_notification_seen 0 true Sample.db1
     = (Raise (HTTPException 404 "Notification not found"), Sample.db1).
Proof.
  split.
  - destruct (proj1 (proj2 (update_notification_seen_sets_the_given_value
                              1 true 0 Sample.db1))
                    (Notification.create (milliseconds 10) "E1" "M1" "Alice"
                       "You have received new feedback from manager Alice")
                    eq_refl)
      as (dbA & dbB & E1 & G1 & _ & E2 & G2).
    exists dbA, dbB. split; [exact E1|].
    split; [rewrite G1; reflexivity|]. split; [exact E2|].
    rewrite G2; reflexivity.
  - exact (proj1 (update_notification_seen_sets_the_given_value
                    0 true 0 Sample.db1) eq_refl).
Defined.

(** The orphan feedback is in Eve's history, under the name "Unknown". *)
Lemma get_feedback_history_example :
  exists outs,
    get_feedback_history Sample.View Sample.html "E1" Sample.db_orphan
    = (Ok outs, Sample.db_orphan)
    /\ In (Sample.View 0 Sample.orphan "Unknown" (Some [])) outs.
Proof.
  destruct (get_feedback_history_unknown_manager
              Sample.View Sample.html "E1" Sample.db_orphan)
    as (outs & E & H).
  exists outs. split; [exact E|].
  exact (H 0 Sample.orphan (or_introl eq_refl) eq_refl eq_refl).
Defined.

(** * More examples *)

(** Alice has two unseen requests; marking the first leaves one. *)
Lemma mark_seen_example :
  exists db' before after,
    mark_feedback_request_seen 0 Shift.db3
      = (Ok "Feedback request marked as seen", db')
    /\ count_unseen_requests "M1" Shift.db3 = (Ok before, Shift.db3)
    /\ count_unseen_requests "M1" db' = (Ok after, db')
    /\ before = after + 1.
Proof.
  exact (mark_seen_lowers_unseen_count 0 "M1" Shift.db3
           (FeedbackRequest.mk "E1" "M1" "please review" false
                                (milliseconds 20))
           Sample.alice eq_refl eq_refl eq_refl).
Defined.

(** A third request to Alice counts for Alice and not for Bob. *)
Lemma request_feedback_count_example :
  (exists db' before after,
      request_feedback 23 Shift.ask_again Shift.db3
        = (Ok "Feedback request submitted successfully", db')
      /\ count_unseen_requests "M1" Shift.db3 = (Ok before, Shift.db3)
      /\ count_unseen_requests "M1" db' = (Ok after, db')
      /\ after = before + 1)
  /\ (exists db' before after,
        request_feedback 23 Shift.ask_again Shift.db3
          = (Ok "Feedback request submitted successfully", db')
        /\ count_unseen_requests "M2" Shift.db3 = (Ok before, Shift.db3)
        /\ count_unseen_requests "M2" db' = (Ok after, db')
        /\ after = before + 0).
Proof.
  split.
  - exact (request_feedback_raises_unseen_count 23 Shift.ask_again "M1"
             Shift.db3 Sample.eve Sample.alice Sample.alice
             eq_refl eq_refl eq_refl).
  - exact (request_feedback_raises_unseen_count 23 Shift.ask_again "M2"
             Shift.db3 Sample.eve Sample.alice Sample.bob
             eq_refl eq_refl eq_refl).
Defined.

(** The first feedback of the store, created a quarter of a millisecond past
    the tenth: the response carries that time, both histories the time to the
    millisecond. *)
Lemma create_feedback_histories_example :
  exists db' fb stored u mine theirs,
    create_feedback Sample.View (milliseconds 10 + 250) Sample.praise
                    Sample.db0
      = (Ok (Sample.View 0 fb "Alice" None), db')
    /\ Feedback.created_at fb = milliseconds 10 + 250
    /\ Feedback.created_at stored = milliseconds 10
    /\ Feedback.strengths stored = Feedback.strengths fb
    /\ Feedback.tags stored = Feedback.tags fb
    /\ lookup (has_employee_id "M1") Sample.db0 = Some u
    /\ get_feedback_history Sample.View Sample.html "E1" Sample.db0
       = (Ok mine, Sample.db0)
    /\ get_feedback_history Sample.View Sample.html "E1" db'
       = (Ok (mine ++ [Sample.View 0 stored (User.name u) (Some [])]), db')
    /\ get_manager_feedback_history Sample.View Sample.html "M1" Sample.db0
       = (Ok theirs, Sample.db0)
    /\ get_manager_feedback_history Sample.View Sample.html "M1" db'
       = (Ok (theirs ++ [Sample.View 0 stored "Alice" (Some [])]), db')
    /\ forall other,
        other <> "E1" ->
        fst (get_feedback_history Sample.View Sample.html other db')
        = fst (get_feedback_history Sample.View Sample.html other Sample.db0).
Proof.
  destruct (create_feedback_then_histories Sample.View Sample.html
              (milliseconds 10 + 250) Sample.praise Sample.db0
              Sample.alice Sample.eve eq_refl eq_refl)
    as (db' & fb & stored & u & mine & theirs & E & T1 & T2 & _ & _ & S & _
        & _ & _ & G & _ & _ & R).
  exists db', fb, stored, u, mine, theirs.
  split; [exact E|]. split; [exact T1|]. split; [exact T2|].
  split; [exact S|]. split; [exact G|]. exact R.
Defined.

(** Eve's comment is stored with Alice's feedback and announced to Alice
    under identifier 2. *)
Lemma comment_notification_example :
  exists db' fb',
    comment (milliseconds 12 + 7) 0 Sample.first_comment Sample.db1
      = (Ok "Comment added", db')
    /\ Store.get (feedbacks db') 0 = Some fb'
    /\ Feedback.comments fb' = [Comment.mk "E1" "thanks"]
    /\ Feedback.strengths fb' = "clear code"
    /\ notifications db'
       = notifications Sample.db1
           ++ [(2, Notification.mk "M1" "M1" "Alice"
                     "Employee E1 commented on your feedback." false
                     (milliseconds 12))].
Proof.
  destruct (comment_tells_the_manager (milliseconds 12 + 7) 0
              Sample.first_comment Sample.db1
              Sample.praise_feedback Sample.eve eq_refl eq_refl eq_refl)
    as (db' & fb' & E & _ & _ & G & K & _ & _ & S & _ & _ & _ & _ & _ & _
        & N & _).
  exists db', fb'. split; [exact E|]. split; [exact G|]. split; [exact K|].
  split; [exact S|]. exact (N Sample.alice eq_refl).
Defined.

(** Deleting Alice's feedbacks twice: the second result counts none. *)
Lemma delete_all_twice_example :
  exists deleted db1,
    delete_all "M1" Sample.db2
      = (Ok [Text "Deleted "; Formatted deleted; Text " items"], db1)
    /\ delete_all "M1" db1
       = (Ok [Text "Deleted "; Formatted (DeleteResult.mk 0); Text " items"],
          db1)
    /\ get_manager_feedback_history Sample.View Sample.html "M1" db1
       = (Ok [], db1).
Proof.
  exact (delete_all_again_removes_nothing Sample.View Sample.html "M1"
           Sample.db2 Sample.alice eq_refl).
Defined.

(** Alice's rewrite names Eve and herself again; the feedback stays Eve's,
    Alice's and acknowledged. *)
Lemma feedback_identity_example :
  let fb' := Feedback.mk "E1" "M1" "steady" "reviews" "neutral" true []
                         true [] (milliseconds 10) in
  Feedback.employee_id fb' = "E1"
  /\ Feedback.manager_employee_id fb' = "M1"
  /\ Feedback.created_at fb' = milliseconds 10
  /\ (false = true -> Feedback.acknowledged fb' = true).
Proof.
  exact (feedback_identity_is_kept Sample.View Sample.html
           [(11, Acknowledge 0);
            (13, UpdateFeedback 0 Sample.rewrite_by_alice)]
           Sample.db1 0 Sample.praise_feedback
           (Feedback.mk "E1" "M1" "steady" "reviews" "neutral" true []
                        true [] (milliseconds 10))
           eq_refl eq_refl eq_refl).
Defined.

(** Eve's first request survives being marked and Alice's clean-up. *)
Lemma request_survives_example :
  exists r',
    Store.get
      (feedback_requests
         (run_all Sample.View Sample.html
            [(30, MarkFeedbackRequestSeen 0); (31, DeleteAll "M1")]
            Shift.db3))
      0
    = Some r'
    /\ FeedbackRequest.employee_id r' = "E1"
    /\ FeedbackRequest.manager_employee_id r' = "M1"
    /\ FeedbackRequest.message r' = "please review"
    /\ FeedbackRequest.created_at r' = milliseconds 20
    /\ (false = true -> FeedbackRequest.seen r' = true).
Proof.
  exact (requests_are_never_deleted Sample.View Sample.html
           [(30, MarkFeedbackRequestSeen 0); (31, DeleteAll "M1")]
           Shift.db3 0
           (FeedbackRequest.mk "E1" "M1" "please review" false
                                (milliseconds 20))
           eq_refl).
Defined.

(** Eve's notification outlives the feedback it announced. *)
Lemma notification_survives_example :
  exists n',
    Store.get
      (notifications
         (run_all Sample.View Sample.html
            [(30, MarkAllSeen "E1"); (31, DeleteFeedback 0)]
            Sample.db1))
      1
    = Some n'
    /\ Notification.employee_id n' = "E1"
    /\ Notification.manager_employee_id n' = "M1"
    /\ Notification.manager_name n' = "Alice"
    /\ Notification.message n'
       = "You have received new feedback from manager Alice"
    /\ Notification.created_at n' = milliseconds 10.
Proof.
  exact (notifications_are_never_deleted Sample.View Sample.html
           [(30, MarkAllSeen "E1"); (31, DeleteFeedback 0)]
           Sample.db1 1
           (Notification.create (milliseconds 10) "E1" "M1" "Alice"
              "You have received new feedback from manager Alice")
           eq_refl).
Defined.

(** Alice's listing has two unseen entries, and her count is two. *)
Lemma count_matches_listing_example :
  exists n outs,
    count_unseen_requests "M1" Shift.db3 = (Ok n, Shift.db3)
    /\ get_feedback_requests "M1" Shift.db3 = (Ok outs, Shift.db3)
    /\ n = List.length (filter (fun o => negb (RequestOut.seen o)) outs).
Proof.
  exact (count_unseen_matches_the_listing "M1" Shift.db3 Sample.alice
           eq_refl).
Defined.

(** Once Alice's feedback is deleted, nothing can be done with it. *)
Lemma deleted_feedback_example :
  exists db1,
    delete_feedback 0 Sample.db1 = (Ok "Deleted", db1)
    /\ delete_feedback 0 db1
       = (Raise (HTTPException 404 "Feedback not found"), db1)
    /\ acknowledge 11 0 db1
       = (Raise (HTTPException 404 "Feedback not found"), db1)
    /\ update_feedback Sample.View 0 Sample.rewrite_by_alice db1
       = (Raise (HTTPException 404 "Feedback not found"), db1)
    /\ comment 11 0 Sample.first_comment db1
       = (Raise (HTTPException 404 "Feedback not found"), db1)
    /\ forall other,
        other <> 0 ->
        Store.get (feedbacks db1) other
        = Store.get (feedbacks Sample.db1) other.
Proof.
  exact (deleted_feedback_is_gone Sample.View 11 0 Sample.rewrite_by_alice
           Sample.first_comment Sample.db1 Sample.praise_feedback
           Sample.alice eq_refl eq_refl).
Defined.

(** The orphan can be neither rewritten nor deleted. *)
Lemma orphan_feedback_example :
  update_feedback Sample.View 0 Sample.rewrite_by_alice Sample.db_orphan
    = (Raise (HTTPException 403 "Not authorized"), Sample.db_orphan)
  /\ delete_feedback 0 Sample.db_orphan
     = (Raise (HTTPException 403 "Not authorized"), Sample.db_orphan)
  /\ delete_all "M9" Sample.db_orphan
     = (Raise (HTTPException 403 "Not authorized"), Sample.db_orphan).
Proof.
  exact (orphan_feedback_is_frozen Sample.View 0 Sample.rewrite_by_alice
           Sample.db_orphan Sample.orphan eq_refl eq_refl).
Defined.

(** Forty feedbacks and the title make one full page and three lines more. *)
Lemma export_pdf_example :
  exists ops full last,
    export_pdf Shift.shout "E1" Shift.db_many = (Ok ops, Shift.db_many)
    /\ pages_of ops [] = full ++ [last]
    /\ List.length full = 1
    /\ List.length last = 3.
Proof.
  destruct (export_pdf_pages Shift.shout "E1" Shift.db_many)
    as (ops & full & last & E & P & F & L & C & N).
  exists ops, full, last. split; [exact E|]. split; [exact P|].
  assert (N1 : List.length full = 1) by exact N.
  split; [exact N1|].
  apply (f_equal (@List.length string)) in C.
  rewrite concat_app, length_app, (length_concat_full 38 _ F), N1 in C.
  simpl in C. rewrite app_nil_r in C. lia.
Defined.

(** Marking Eve's first request twice; identifier 9 is not stored. *)
Lemma mark_seen_again_example :
  (exists db1,
      mark_feedback_request_seen 0 Shift.db3
        = (Ok "Feedback request marked as seen", db1)
      /\ mark_feedback_request_seen 0 db1
         = (Ok "Feedback request marked as seen", db1)
      /\ notifications db1 = notifications Shift.db3
      /\ Store.get (feedback_requests db1) 2
         = Store.get (feedback_requests Shift.db3) 2)
  /\ mark_feedback_request_seen 9 Shift.db3
     = (Raise (HTTPException 404 "Feedback request not found"), Shift.db3).
Proof.
  split.
  - destruct (proj2 (mark_seen_again_changes_nothing 0 Shift.db3)
                    (FeedbackRequest.mk "E1" "M1" "please review" false
                                         (milliseconds 20))
                    eq_refl)
      as (db1 & E1 & E2 & _ & _ & N & _ & _ & O).
    exists db1. split; [exact E1|]. split; [exact E2|]. split; [exact N|].
    apply O. discriminate.
  - exact (proj1 (mark_seen_again_changes_nothing 9 Shift.db3) eq_refl).
Defined.

(** Alice marks her feed: the three notices to her are seen, Eve's is not
    touched. *)
Lemma mark_all_seen_example :
  exists db',
    mark_all_seen "M1" Shift.db4
      = (Ok "All notifications marked as seen", db')
    /\ option_map Notification.seen (Store.get (notifications db') 3)
       = Some true
    /\ Store.get (notifications db') 1
       = Store.get (notifications Shift.db4) 1
    /\ exists outs,
        get_notifications "M1" db' = (Ok outs, db')
        /\ forall o, In o outs -> NotificationOut.seen o = true.
Proof.
  destruct (mark_all_seen_marks_the_employees_feed "M1" Shift.db4)
    as (db' & E & G & _ & _ & _ & _ & _ & _ & L).
  exists db'. split; [exact E|]. split; [now rewrite G|].
  split; [now rewrite G|]. exact L.
Defined.

(** Nobody is called "E7"; "E1" is no manager, although she is registered. *)
Lemma unknown_identifier_example :
  get_feedback_history Sample.View Sample.html "E7" Sample.db1
    = (Ok [], Sample.db1)
  /\ get_manager_feedback_history Sample.View Sample.html "E1" Sample.db1
     = (Raise (HTTPException 404 "Manager not found"), Sample.db1).
Proof.
  split.
  - apply (proj1 (histories_of_an_unknown_identifier
                    Sample.View Sample.html "E7" Sample.db1)).
    intros e [<- | []]. discriminate.
  - exact (proj2 (histories_of_an_unknown_identifier
                    Sample.View Sample.html "E1" Sample.db1) eq_refl).
Defined.

(** Bob is a manager and may not comment; "E7" is nobody; feedback 7 is not
    stored. *)
Lemma comment_refusals_example :
  comment 12 0 (CommentIn.mk "M2" "well done") Sample.db1
    = (Raise (HTTPException 403 "Not authorized"), Sample.db1)
  /\ comment 12 0 (CommentIn.mk "E7" "hello") Sample.db1
     = (Raise (HTTPException 403 "Not authorized"), Sample.db1)
  /\ comment 12 7 (CommentIn.mk "E7" "hello") Sample.db1
     = (Raise (HTTPException 404 "Feedback not found"), Sample.db1).
Proof.
  split; [|split].
  - apply (proj2 (proj2 (comment_refusals 12 0 (CommentIn.mk "M2" "well done")
                           Sample.db1)
                        Sample.praise_feedback eq_refl)
                 Sample.bob eq_refl).
    discriminate.
  - exact (proj1 (proj2 (comment_refusals 12 0 (CommentIn.mk "E7" "hello")
                           Sample.db1)
                        Sample.praise_feedback eq_refl)
                 eq_refl).
  - exact (proj1 (comment_refusals 12 7 (CommentIn.mk "E7" "hello")
                    Sample.db1)
                 eq_refl).
Defined.

(** Alice's requests, the later one first; Eve has no such listing. *)
Lemma get_feedback_requests_example :
  (exists outs,
      get_feedback_requests "M1" Shift.db3 = (Ok outs, Shift.db3)
      /\ Permutation outs
           [RequestOut.mk 0 "E1" "please review" false (milliseconds 20);
            RequestOut.mk 2 "E1" "any news?" false (milliseconds 21)]
      /\ StronglySorted
           (fun a b => RequestOut.created_at b <= RequestOut.created_at a)
           outs)
  /\ get_feedback_requests "E1" Shift.db3
     = (Raise (HTTPException 404 "Manager not found"), Shift.db3).
Proof.
  split.
  - exact (proj2 (get_feedback_requests_newest_first "M1" Shift.db3)
                 Sample.alice eq_refl).
  - exact (proj1 (get_feedback_requests_newest_first "E1" Shift.db3)
                 eq_refl).
Defined.
